(** * VitalCare AI: the session rate limiter and the analysis flow of [app.py]

    A shallow embedding of the Streamlit script [src/app.py].  The script is
    re-executed from top to bottom on every user interaction; what survives
    between two executions is [st.session_state], modelled here as the record
    [SessionState].  Everything the script reads from its environment (the
    wall clock, the uploaded file, the "Analyze" button, the reply of the
    generative model, the Pillow image library) is an explicit input.  The
    API key and the model client are taken to be set up: without them the
    script stops at line 53 or 86, before anything modelled here. *)

From Stdlib Require Import ZArith List String Ascii Bool Lia DecimalString.
From Stdlib Require QArith.
Import ListNotations.
Local Open Scope string_scope.
Local Open Scope Z_scope.

(** ** Wall clock: [datetime] and [timedelta]

    A naive [datetime] is a count of microseconds on the local clock, and a
    [timedelta] is a signed count of microseconds; [datetime - datetime] is
    exact integer subtraction. *)

Definition datetime := Z.
Definition timedelta := Z.

Definition microseconds_per_second : Z := 1000000.
Definition seconds_per_day : Z := 86400.

(** [timedelta(minutes=n)] *)
Definition timedelta_minutes (n : Z) : timedelta :=
  n * 60 * microseconds_per_second.

(** [timedelta(seconds=n)] *)
Definition timedelta_seconds (n : Z) : timedelta :=
  n * microseconds_per_second.

(** The [.seconds] attribute of a [timedelta].  Python keeps a timedelta
    normalised as (days, seconds, microseconds) with [0 <= seconds < 86400]
    and [0 <= microseconds < 1000000]; [.seconds] is the middle component,
    not the total duration. *)
Definition td_seconds (d : timedelta) : Z :=
  (d mod (seconds_per_day * microseconds_per_second)) / microseconds_per_second.

(** The duration in whole seconds (rounded towards minus infinity). *)
Definition whole_seconds (d : timedelta) : Z := d / microseconds_per_second.

(** ** Session state (lines 15-19) *)

Record SessionState := mkSession {
  last_request_time : option datetime;
  request_count : Z
}.

(** The state a new session starts with. *)
Definition initial_session : SessionState :=
  {| last_request_time := None; request_count := 0 |}.

(** ** Rate limiter (lines 21-39) *)

Definition window : timedelta := timedelta_minutes 1.
Definition budget : Z := 8.

Definition limit_message : string :=
  "Rate limit reached. Please wait 1 minute before next analysis.".

(** The guard of the first [if] of [can_make_request]. *)
Definition window_rolled_over (now : datetime) (st : SessionState) : bool :=
  match last_request_time st with
  | None => true
  | Some t => now - t >? window
  end.

(** [can_make_request()], with the reading of [datetime.now()] as [now].
    The function mutates the session (the counter reset) and returns the pair
    [(allowed, message)]; here the new session is returned alongside. *)
Definition can_make_request (now : datetime) (st : SessionState)
  : SessionState * (bool * string) :=
  let st1 :=
    if window_rolled_over now st
    then {| last_request_time := last_request_time st; request_count := 0 |}
    else st in
  if request_count st1 >=? budget
  then (st1, (false, limit_message))
  else (st1, (true, "")).

(** [update_request_tracker()], with the reading of [datetime.now()] as [now]. *)
Definition update_request_tracker (now : datetime) (st : SessionState)
  : SessionState :=
  {| last_request_time := Some now; request_count := request_count st + 1 |}.

(** Line 166: [60 - (datetime.now() - st.session_state.last_request_time).seconds].
    Subtracting [None] from a datetime raises [TypeError]; that is [None] here. *)
Definition remaining_time (now : datetime) (st : SessionState) : option Z :=
  match last_request_time st with
  | None => None
  | Some t => Some (60 - td_seconds (now - t))
  end.

(** ** Strings: the [in] operator and [str.lower()]

    A Python [str] is modelled by its UTF-8 bytes.  The needles searched for
    by the script are ASCII, and an ASCII byte never occurs inside a
    multi-byte UTF-8 sequence, so searching bytes agrees with searching code
    points.  The only code points whose lower-case form contains a letter of
    ["quota"] or ["safety"] are the ASCII capitals, so lowering ASCII capitals
    alone decides the same tests as [str.lower()]. *)

Fixpoint startswith (s p : string) {struct p} : bool :=
  match p, s with
  | EmptyString, _ => true
  | String _ _, EmptyString => false
  | String a p', String b s' => Ascii.eqb a b && startswith s' p'
  end.

(** [needle in hay] *)
Fixpoint str_in (needle hay : string) : bool :=
  startswith hay needle ||
  match hay with
  | EmptyString => false
  | String _ rest => str_in needle rest
  end.

Definition lower_ascii (c : ascii) : ascii :=
  let n := nat_of_ascii c in
  if ((65 <=? n) && (n <=? 90))%nat then ascii_of_nat (n + 32) else c.

Fixpoint lower (s : string) : string :=
  match s with
  | EmptyString => EmptyString
  | String c rest => String (lower_ascii c) (lower rest)
  end.

(** Python truthiness of a [str]. *)
Definition truthy (s : string) : bool :=
  match s with EmptyString => false | String _ _ => true end.

(** The value of [st.file_uploader(...)] once a file is chosen. *)
Record UploadedFile := mkUpload {
  name : string;
  getvalue : list Byte.byte
}.

(** ** External collaborators

    The picture side of the script.  Pillow is used through [Image.open],
    the attributes [mode], [size] and [format], and [convert].  [Image.open]
    raises on bytes it cannot identify, and reads no more than the header;
    [convert] reads the pixel data and raises when that fails, as on a
    truncated file, or when it has no conversion to offer.  An exception is
    the left injection, with its message.  [st_image f image] stands for
    lines 142-150, which draw the picture and its three metrics with
    Streamlit: [Some e] when one of these calls raises [e], as [st.image]
    does when the pixel data of a picture not yet loaded cannot be read. *)

Class Pillow := {
  Image : Type;
  image_open : list Byte.byte -> string + Image;
  image_mode : Image -> string;
  image_size : Image -> Z * Z;
  image_format : Image -> option string;
  image_convert : string -> Image -> string + Image;
  st_image : UploadedFile -> Image -> option string
}.

(** What Pillow documents about [convert('RGB')]: the copy it returns, when
    it returns one, is in the requested mode and has the size of the
    original. *)
Class PillowConvert (P : Pillow) : Prop := {
  convert_rgb_mode : forall img out,
    image_convert "RGB" img = inr out -> image_mode out = "RGB";
  convert_rgb_size : forall img out,
    image_convert "RGB" img = inr out -> image_size out = image_size img
}.

(** [datetime.strftime(format)]. *)
Class DateFormat := {
  strftime : string -> datetime -> string
}.

(** What [model.generate_content(...)] followed by the reading of
    [response.text] amounts to: an exception with its [str(e)], or a response
    whose text is [Some t]; [None] stands for a falsy response and for one
    without a [text] attribute. *)
Inductive Generation :=
| Raised (error_msg : string)
| Responded (text : option string).

(** ** Image intake (lines 125-154) *)

Definition max_size : Z := 5 * 1024 * 1024.

Definition file_size (f : UploadedFile) : Z := Z.of_nat (List.length (getvalue f)).

Inductive ValidationError :=
| TooLarge (size : Z)
| Undecodable (error_msg : string).

(** ** Report (lines 199-211) *)

Definition REPORT_TITLE : string := "MEDICAL IMAGE ANALYSIS REPORT".

Definition DISCLAIMER : string :=
"DISCLAIMER: This AI-generated analysis is for educational and informational purposes only. 
It should not be used as a substitute for professional medical advice, diagnosis, or treatment. 
Always consult qualified healthcare professionals for medical decisions.
".

(** Formatting of a Python [int] inside an f-string. *)
Definition str_of_int (z : Z) : string :=
  DecimalString.NilZero.string_of_int (Z.to_int z).

(** The f-string of lines 200-211; [generated] is the rendered timestamp. *)
Definition report_content (generated image_name : string) (size : Z * Z)
  (text : string) : string :=
  REPORT_TITLE ++ "
Generated: " ++ generated ++ "
Image: " ++ image_name ++ "
Size: " ++ str_of_int (fst size) ++ " × " ++ str_of_int (snd size) ++ " pixels

" ++ text ++ "

---
" ++ DISCLAIMER.

Definition report_file_name (timestamp : string) : string :=
  "medical_analysis_" ++ timestamp ++ ".txt".

(** ** Outcomes of one execution of the script *)

(** The four [st.error] branches of lines 222-238. *)
Inductive Failure :=
| EmptyResponse                          (* "No analysis generated." *)
| ProviderRateLimited                    (* "API rate limit exceeded!" *)
| SafetyRejected                         (* "Image was flagged by safety filters." *)
| ProviderError (error_msg : string).    (* "Analysis failed: {error_msg}" *)

Inductive Outcome :=
| NoUpload                                           (* line 125 is false *)
| Rejected (e : ValidationError)                     (* lines 131-132, 153-154 *)
| Denied (limit_msg : string) (wait : option Z)      (* lines 165-167 *)
| Ready                                              (* button shown, not pressed *)
| Succeeded (text report file : string)              (* lines 192-220 *)
| Failed (kind : Failure).

(** Lines 226-238: the [except] handler. *)
Definition classify_exception (error_msg : string) : Failure :=
  if str_in "429" error_msg || str_in "quota" (lower error_msg)
  then ProviderRateLimited
  else if str_in "safety" (lower error_msg)
  then SafetyRejected
  else ProviderError error_msg.

(** Effects on the outside world: the pause of line 178 and the request
    sent to the model at line 188. *)
Inductive Effect {P : Pillow} :=
| Sleep (seconds : Z)
| GenerateContent (prompt : string) (img : Image).

Definition is_model_call {P : Pillow} (e : Effect) : bool :=
  match e with GenerateContent _ _ => true | Sleep _ => false end.

(** ** The script (lines 88-238) *)

Definition MEDICAL_PROMPT : string := "
You are an expert medical image analysis assistant. Please analyze this medical image and provide a structured report with the following sections:

## IMAGE TYPE & QUALITY
- Identify the type of medical imaging (X-ray, CT, MRI, ultrasound, etc.)
- Comment on image quality and visibility

## ANATOMICAL STRUCTURES
- Describe the main anatomical structures visible
- Note their appearance and positioning

## OBSERVATIONS
- List any notable findings, abnormalities, or areas of concern
- Describe any variations from normal appearance
- Comment on symmetry, density, or other relevant features

## CLINICAL RECOMMENDATIONS
- Suggest potential next steps or additional imaging if needed
- Recommend consultation with specific specialists if appropriate

## IMPORTANT LIMITATIONS
- Note any limitations in the analysis due to image quality or viewing angle
- Mention areas that require clinical correlation

Please provide me an output response with these 4 headings Detailed Analysis, Findings Report,  Recommendations and Next Steps, Treatment suggestions
".

Section Script.
Context {P : Pillow} {D : DateFormat}.

(** Lines 139-140 and 184-185: [if image.mode != 'RGB': image = image.convert('RGB')];
    the left injection is the exception raised by [convert]. *)
Definition ensure_rgb (img : Image) : string + Image :=
  if String.eqb (image_mode img) "RGB" then inr img else image_convert "RGB" img.

(** Lines 127-154: the size check, then the [try] around [Image.open], the
    conversion and the drawing of the picture; an exception raised by any of
    the three is reported as "Cannot load image", and like an oversized file
    it ends the execution with [st.stop()]. *)
Definition image_intake (f : UploadedFile) : ValidationError + Image :=
  if file_size f >? max_size
  then inl (TooLarge (file_size f))
  else match image_open (getvalue f) with
       | inl error_msg => inl (Undecodable error_msg)
       | inr opened =>
           match ensure_rgb opened with
           | inl error_msg => inl (Undecodable error_msg)
           | inr image =>
               match st_image f image with
               | Some error_msg => inl (Undecodable error_msg)
               | None => inr image
               end
           end
       end.

(** Everything one execution of the script reads from outside the session:
    the widgets, the successive readings of [datetime.now()] and the model. *)
Record Interaction := mkInteraction {
  uploaded_file : option UploadedFile;
  button : bool;
  now_check : datetime;      (* line 23 *)
  now_wait : datetime;       (* line 166 *)
  now_record : datetime;     (* line 38 *)
  now_stamp : datetime;      (* line 199 *)
  now_report : datetime;     (* line 201 *)
  generate_content : string -> Image -> Generation
}.

Record Run := mkRun {
  session : SessionState;
  outcome : Outcome;
  effects : list Effect
}.

(** Lines 178-238, after the tracker update: the rest of the [try] block and
    its [except] handler.  [image] is the picture shown on the page, whose
    size goes into the report; the file is opened and converted a second
    time for the model, and an exception raised there goes to the handler
    like one raised by the model. *)
Definition generate (f : UploadedFile) (image : Image) (i : Interaction)
  : list Effect * Outcome :=
  match image_open (getvalue f) with
  | inl error_msg => ([Sleep 3], Failed (classify_exception error_msg))
  | inr opened =>
      match ensure_rgb opened with
      | inl error_msg => ([Sleep 3], Failed (classify_exception error_msg))
      | inr pil_image =>
          let fx := [Sleep 3; GenerateContent MEDICAL_PROMPT pil_image] in
          match generate_content i MEDICAL_PROMPT pil_image with
          | Raised error_msg => (fx, Failed (classify_exception error_msg))
          | Responded None => (fx, Failed EmptyResponse)
          | Responded (Some text) =>
              if truthy text
              then (fx, Succeeded text
                          (report_content
                             (strftime "%Y-%m-%d %H:%M:%S" (now_report i))
                             (name f) (image_size image) text)
                          (report_file_name
                             (strftime "%Y-%m-%d_%H-%M-%S" (now_stamp i))))
              else (fx, Failed EmptyResponse)
          end
      end
  end.

(** Lines 161-238: the rate-limit check, then either the waiting notice or
    the button and, when it was pressed, the tracked call. *)
Definition analysis (f : UploadedFile) (image : Image) (i : Interaction)
  (st : SessionState) : Run :=
  let '(st1, (can_request, limit_msg)) := can_make_request (now_check i) st in
  if negb can_request
  then {| session := st1;
          outcome := Denied limit_msg (remaining_time (now_wait i) st1);
          effects := [] |}
  else if button i
  then let st2 := update_request_tracker (now_record i) st1 in
       let '(fx, out) := generate f image i in
       {| session := st2; outcome := out; effects := fx |}
  else {| session := st1; outcome := Ready; effects := [] |}.

(** One execution of the script on the session [st]. *)
Definition script (i : Interaction) (st : SessionState) : Run :=
  match uploaded_file i with
  | None => {| session := st; outcome := NoUpload; effects := [] |}
  | Some f =>
      match image_intake f with
      | inl e => {| session := st; outcome := Rejected e; effects := [] |}
      | inr image => analysis f image i st
      end
  end.

(** Successive executions, oldest first. *)
Fixpoint outcomes (steps : list Interaction) (st : SessionState) : list Outcome :=
  match steps with
  | [] => []
  | i :: rest => outcome (script i st) :: outcomes rest (session (script i st))
  end.

Fixpoint session_after (steps : list Interaction) (st : SessionState) : SessionState :=
  match steps with
  | [] => st
  | i :: rest => session_after rest (session (script i st))
  end.

(** The sessions the script can be in. *)
Inductive reachable : SessionState -> Prop :=
| reachable_initial : reachable initial_session
| reachable_script : forall i st,
    reachable st -> reachable (session (script i st)).

(** The request went past the limiter. *)
Definition allowed (o : Outcome) : bool :=
  match o with Denied _ _ => false | _ => true end.

(** A call: an execution with a valid upload and the button pressed (the
    press is read only when the limiter lets the button appear). *)
Definition is_call (i : Interaction) : bool :=
  button i &&
  match uploaded_file i with
  | Some f => match image_intake f with inr _ => true | inl _ => false end
  | None => false
  end.

(** Both clock readings that reach the session lie in [[w, w + window]]. *)
Definition clock_within (w : datetime) (i : Interaction) : Prop :=
  (w <= now_check i <= w + window) /\ (w <= now_record i <= w + window).

(** The counter is zero at [w] or is reset by every check from [w] on. *)
Definition counter_fresh (w : datetime) (st : SessionState) : Prop :=
  match last_request_time st with
  | None => True
  | Some t => request_count st = 0 \/ w - t > window
  end.

(** The last request was recorded inside the window. *)
Definition tracked_within (w : datetime) (st : SessionState) : Prop :=
  exists t, last_request_time st = Some t /\ w <= t <= w + window.

(** A list of calls, all made inside the window. *)
Definition calls_within (w : datetime) (steps : list Interaction) : Prop :=
  Forall (fun i => is_call i = true /\ clock_within w i) steps.

End Script.

(** ** A small instance of the collaborators

    Enough of an image library and of a date formatter to run the script on
    concrete inputs: a picture is a one-letter mode tag followed by its width
    and height, one byte each. *)

Record Bitmap := mkBitmap {
  bm_mode : string;
  bm_size : Z * Z;
  bm_format : option string
}.

Definition bitmap_open (raw : list Byte.byte) : string + Bitmap :=
  match raw with
  | tag :: w :: h :: _ =>
      let size := (Z.of_N (Byte.to_N w), Z.of_N (Byte.to_N h)) in
      match tag with
      | Byte.x4c => inr (mkBitmap "L" size (Some "PNG"))
      | Byte.x50 => inr (mkBitmap "P" size (Some "PNG"))
      | Byte.x52 => inr (mkBitmap "RGB" size (Some "JPEG"))
      | _ => inl "cannot identify image file"
      end
  | _ => inl "cannot identify image file"
  end.

(** A converted picture is a new one: it carries no file format.  A
    palette picture cannot be converted here: the file holds its header
    only, and the palette is part of the data that is missing. *)
Definition bitmap_convert (mode : string) (b : Bitmap) : string + Bitmap :=
  if String.eqb (bm_mode b) "P"
  then inl "image file is truncated"
  else inr (mkBitmap mode (bm_size b) None).

(** Drawing fails on a picture without pixels. *)
Definition bitmap_draw (f : UploadedFile) (b : Bitmap) : option string :=
  if (fst (bm_size b) =? 0) || (snd (bm_size b) =? 0)
  then Some "image file is truncated"
  else None.

#[local] Instance bitmaps : Pillow := {|
  Image := Bitmap;
  image_open := bitmap_open;
  image_mode := bm_mode;
  image_size := bm_size;
  image_format := bm_format;
  image_convert := bitmap_convert;
  st_image := bitmap_draw
|}.

#[local] Instance bitmaps_convert : PillowConvert bitmaps.
Proof.
  split; intros img out; cbn; unfold bitmap_convert;
    destruct (String.eqb (bm_mode img) "P"); intros H;
    try discriminate H; injection H as <-; reflexivity.
Qed.

(** Timestamps rendered as a count of seconds. *)
#[local] Instance seconds_format : DateFormat := {|
  strftime := fun _ t => str_of_int (whole_seconds t)
|}.

(** A 100 x 100 grayscale picture. *)
Definition gray_upload : UploadedFile :=
  mkUpload "scan.png" [Byte.x4c; Byte.x64; Byte.x64].

(** A 100 x 100 RGB picture. *)
Definition rgb_upload : UploadedFile :=
  mkUpload "scan.jpg" [Byte.x52; Byte.x64; Byte.x64].

(** A 100 x 100 palette picture: it opens, and cannot be converted. *)
Definition palette_upload : UploadedFile :=
  mkUpload "cut.png" [Byte.x50; Byte.x64; Byte.x64].


(** A press of the button [secs] seconds into the session, with a model
    that answers ["X-ray"]. *)
Definition call_at (secs : Z) : Interaction :=
  {| uploaded_file := Some gray_upload;
     button := true;
     now_check := timedelta_seconds secs;
     now_wait := timedelta_seconds secs;
     now_record := timedelta_seconds secs;
     now_stamp := timedelta_seconds secs;
     now_report := timedelta_seconds secs;
     generate_content := fun _ _ => Responded (Some "X-ray") |}.

(** The same execution with another reply of the model. *)
Definition with_reply (g : Generation) (i : Interaction) : Interaction :=
  {| uploaded_file := uploaded_file i;
     button := button i;
     now_check := now_check i;
     now_wait := now_wait i;
     now_record := now_record i;
     now_stamp := now_stamp i;
     now_report := now_report i;
     generate_content := fun _ _ => g |}.

(** Eight presses of the button, 50 seconds apart, from the start of a session. *)
Definition eight_spaced_calls : list Interaction :=
  map call_at [0; 50; 100; 150; 200; 250; 300; 350].

(** A payload of exactly 6 MiB, and one of exactly 4 MiB that starts with
    the header of a 100 x 100 grayscale picture. *)
Definition zeros (n : Z) : list Byte.byte := repeat Byte.x00 (Z.to_nat n).

Definition six_mib_upload : UploadedFile :=
  mkUpload "big.png" (zeros (6 * 1024 * 1024)).

Definition four_mib_upload : UploadedFile :=
  mkUpload "scan.png"
    (Byte.x4c :: Byte.x64 :: Byte.x64 :: zeros (4 * 1024 * 1024 - 3)).

(** Closes [calls_within w steps] for an explicit list of calls. *)
Ltac within_window :=
  repeat (apply Forall_cons || apply Forall_nil);
  (split; [reflexivity | vm_compute; intuition discriminate]).

(** ** Model set-up (lines 55-86)

    [genai.GenerativeModel(model_name=..., generation_config=...)] either
    returns a client or raises; the exception's text is the left injection. *)

Record GenerationConfig := mkConfig {
  temperature : QArith_base.Q;
  max_output_tokens : Z
}.

Class GenAI := {
  Model : Type;
  GenerativeModel : string -> GenerationConfig -> string + Model
}.

(** The dictionary passed at both construction sites (lines 63-66, 74-77);
    the temperature is the decimal literal [0.3]. *)
Definition generation_config : GenerationConfig :=
  {| temperature := QArith_base.Qmake 3 10; max_output_tokens := 2048 |}.

(** What [get_model()] does: the model names it asked a client for, in
    order, the text passed to [st.error] if any, and the value returned. *)
Record ModelSetup {G : GenAI} := mkSetup {
  requested : list string;
  setup_error : option string;
  model : option Model
}.

Definition get_model {G : GenAI} : ModelSetup :=
  match GenerativeModel "gemini-1.5-flash" generation_config with
  | inr m =>
      {| requested := ["gemini-1.5-flash"]; setup_error := None;
         model := Some m |}
  | inl e =>
      match GenerativeModel "gemini-1.5-pro" generation_config with
      | inr m =>
          {| requested := ["gemini-1.5-flash"; "gemini-1.5-pro"];
             setup_error := None; model := Some m |}
      | inl e2 =>
          {| requested := ["gemini-1.5-flash"; "gemini-1.5-pro"];
             setup_error := Some ("❌ Failed to initialize AI model: " ++ e2);
             model := None |}
      end
  end.

(** ** What the page shows besides the outcome *)

(** What Pillow documents about pictures it makes itself, [convert] among
    them: their [format] attribute is [None]. *)
Class PillowFormat (P : Pillow) : Prop := {
  convert_format : forall mode img out,
    image_convert mode img = inr out -> image_format out = None
}.

(** Line 148: the value of the "Image Size" metric. *)
Definition image_size_metric {P : Pillow} (image : Image) : string :=
  str_of_int (fst (image_size image)) ++ " × " ++ str_of_int (snd (image_size image)).

(** Line 150: the value of the "Format" metric. *)
Definition format_metric {P : Pillow} (image : Image) : option string :=
  image_format image.

(** Lines 267-273: the lines of the "Usage Stats" block of the sidebar.  A
    [datetime] is always truthy, so the test of line 271 is [is not None]. *)
Definition usage_stats {D : DateFormat} (st : SessionState) : list string :=
  ("Requests this session: " ++ str_of_int (request_count st)) ::
  match last_request_time st with
  | Some t => ["Last request: " ++ strftime "%H:%M:%S" t]
  | None => []
  end.

(** The sidebar comes after the upload section: [st.stop()] on a rejected
    upload (lines 132 and 154) ends the execution before it is drawn. *)
Definition sidebar {P : Pillow} {D : DateFormat} (i : Interaction)
  (st : SessionState) : option (list string) :=
  match outcome (script i st) with
  | Rejected _ => None
  | _ => Some (usage_stats (session (script i st)))
  end.

(** ** Effects of successive executions *)

Fixpoint all_effects {P : Pillow} {D : DateFormat} (steps : list Interaction)
  (st : SessionState) : list Effect :=
  match steps with
  | [] => []
  | i :: rest =>
      (effects (script i st) ++ all_effects rest (session (script i st)))%list
  end.

Definition count_model_calls {P : Pillow} (fx : list Effect) : nat :=
  List.length (filter is_model_call fx).

(** Calls, each checked more than one window after the request recorded
    before it ([last] is the time of that request, if any). *)
Fixpoint spaced_after {P : Pillow} (last : option datetime)
  (steps : list Interaction) : Prop :=
  match steps with
  | [] => True
  | i :: rest =>
      is_call i = true /\
      match last with
      | None => True
      | Some t => now_check i - t > window
      end /\
      spaced_after (Some (now_record i)) rest
  end.

(** Calls, each checked at most one window after the request recorded
    before it ([last] is the time of that request). *)
Fixpoint chained {P : Pillow} (last : datetime) (steps : list Interaction)
  : Prop :=
  match steps with
  | [] => True
  | i :: rest =>
      is_call i = true /\ now_check i - last <= window /\
      chained (now_record i) rest
  end.

(** The branch of lines 222-238 a failure went through, whatever it carries. *)
Definition same_kind (a b : Failure) : bool :=
  match a, b with
  | EmptyResponse, EmptyResponse => true
  | ProviderRateLimited, ProviderRateLimited => true
  | SafetyRejected, SafetyRejected => true
  | ProviderError _, ProviderError _ => true
  | _, _ => false
  end.

(** A model set-up for examples: only the fallback model can be built. *)
#[local] Instance pro_only : GenAI := {|
  Model := string;
  GenerativeModel := fun model_name _ =>
    if String.eqb model_name "gemini-1.5-pro"
    then inr model_name
    else inl "404 model not found"
|}.

#[local] Instance bitmaps_format : PillowFormat bitmaps.
Proof.
  split; intros mode img out; cbn; unfold bitmap_convert;
    destruct (String.eqb (bm_mode img) "P"); intros H;
    try discriminate H; injection H as <-; reflexivity.
Qed.

(** * Properties *)

(** ** Strings *)

Lemma startswith_append (p rest : string) : startswith (p ++ rest) p = true.
Proof.
  induction p as [|a p IH]; simpl.
  - reflexivity.
  - rewrite Ascii.eqb_refl. exact IH.
Qed.

Lemma str_in_startswith (needle hay : string) :
  startswith hay needle = true -> str_in needle hay = true.
Proof.
  intros H. destruct hay; simpl; rewrite H; reflexivity.
Qed.

Lemma str_in_append (needle pre post : string) :
  str_in needle (pre ++ needle ++ post) = true.
Proof.
  induction pre as [|a pre IH]; simpl.
  - apply str_in_startswith, startswith_append.
  - rewrite IH. apply orb_true_r.
Qed.

Lemma startswith_split (s p : string) :
  startswith s p = true -> exists rest, s = p ++ rest.
Proof.
  revert s. induction p as [|a p IH]; intros s H.
  - exists s. reflexivity.
  - destruct s as [|b s]; simpl in H; [discriminate|].
    apply andb_true_iff in H. destruct H as [Hab Hs].
    apply Ascii.eqb_eq in Hab. subst b.
    destruct (IH _ Hs) as [rest ->]. exists rest. reflexivity.
Qed.

(** [str_in] is Python's substring test. *)
Lemma str_in_spec (needle hay : string) :
  str_in needle hay = true <-> exists pre post, hay = pre ++ needle ++ post.
Proof.
  split.
  - induction hay as [|c hay IH]; simpl; intros H.
    + rewrite orb_false_r in H. apply startswith_split in H.
      destruct H as [rest ->]. exists "", rest. reflexivity.
    + apply orb_true_iff in H. destruct H as [H|H].
      * apply startswith_split in H. destruct H as [rest ->].
        exists "", rest. reflexivity.
      * destruct (IH H) as (pre & post & ->).
        exists (String c pre), post. reflexivity.
  - intros (pre & post & ->). apply str_in_append.
Qed.

(** ** The rate limiter *)

Lemma window_is_sixty_seconds : window = timedelta_seconds 60.
Proof. reflexivity. Qed.

(** The three ways through [can_make_request]. *)
Lemma can_make_request_cases (now : datetime) (st : SessionState) :
  (window_rolled_over now st = true /\
   can_make_request now st =
     ({| last_request_time := last_request_time st; request_count := 0 |},
      (true, "")))
  \/
  (window_rolled_over now st = false /\ request_count st < budget /\
   can_make_request now st = (st, (true, "")))
  \/
  (window_rolled_over now st = false /\ budget <= request_count st /\
   can_make_request now st = (st, (false, limit_message))).
Proof.
  unfold can_make_request.
  destruct (window_rolled_over now st) eqn:R.
  - left. split; [reflexivity|]. reflexivity.
  - right. destruct (request_count st >=? budget) eqn:B.
    + right. apply Z.geb_le in B. repeat split; assumption.
    + left. rewrite Z.geb_leb in B. apply Z.leb_gt in B.
      repeat split; assumption.
Qed.

(** No roll-over means a previous request at most one window back. *)
Lemma not_rolled_over (now : datetime) (st : SessionState) :
  window_rolled_over now st = false ->
  exists t, last_request_time st = Some t /\ now - t <= window.
Proof.
  unfold window_rolled_over. destruct (last_request_time st) as [t|].
  - intros H. exists t. split; [reflexivity|].
    rewrite Z.gtb_ltb in H. apply Z.ltb_ge in H. exact H.
  - discriminate.
Qed.

(** A refusal leaves the session as it was and tells why. *)
Lemma denied_inversion (now : datetime) (st : SessionState) :
  fst (snd (can_make_request now st)) = false ->
  can_make_request now st = (st, (false, limit_message)) /\
  budget <= request_count st /\
  exists t, last_request_time st = Some t /\ now - t <= window.
Proof.
  intros H.
  destruct (can_make_request_cases now st) as [[_ E]|[(_ & _ & E)|(R & B & E)]];
    rewrite E in H; simpl in H; try discriminate.
  repeat split; try assumption. apply not_rolled_over. exact R.
Qed.

(** Once allowed, the counter handed to the tracker is below the budget,
    and not below the one the session had if that one was not negative. *)
Lemma allowed_inversion (now : datetime) (st : SessionState) :
  fst (snd (can_make_request now st)) = true ->
  last_request_time (fst (can_make_request now st)) = last_request_time st /\
  request_count (fst (can_make_request now st)) < budget /\
  (request_count (fst (can_make_request now st)) = 0 \/
   fst (can_make_request now st) = st).
Proof.
  intros H.
  destruct (can_make_request_cases now st) as [[_ E]|[(_ & B & E)|(_ & _ & E)]];
    rewrite E in H |- *; simpl in *; try discriminate.
  - split; [reflexivity | split; [reflexivity | left; reflexivity]].
  - split; [reflexivity | split; [assumption | right; reflexivity]].
Qed.

(** The session after one execution of the script, by cases. *)
Lemma script_session {PIL : Pillow} {DF : DateFormat} (i : Interaction) (st : SessionState) :
  session (script i st) = st \/
  session (script i st) = fst (can_make_request (now_check i) st) \/
  (fst (snd (can_make_request (now_check i) st)) = true /\
   session (script i st) =
     update_request_tracker (now_record i)
       (fst (can_make_request (now_check i) st))).
Proof.
  unfold script.
  destruct (uploaded_file i) as [f|]; [|left; reflexivity].
  destruct (image_intake f) as [e|image]; [left; reflexivity|].
  unfold analysis.
  destruct (can_make_request (now_check i) st) as [st1 [ok msg]]; simpl.
  destruct ok; simpl.
  - destruct (button i).
    + destruct (generate f image i) as [fx out]. right. right.
      split; reflexivity.
    + right. left. reflexivity.
  - right. left. reflexivity.
Qed.

(** The [try] block ends in a failure or in a success, whatever happens. *)
Lemma generate_outcome {PIL : Pillow} {DF : DateFormat} (f : UploadedFile)
  (image : Image) (i : Interaction) :
  (exists k, snd (generate f image i) = Failed k) \/
  (exists text report file,
      snd (generate f image i) = Succeeded text report file).
Proof.
  unfold generate.
  destruct (image_open (getvalue f)) as [err|opened];
    [left; eexists; reflexivity|].
  destruct (ensure_rgb opened) as [err|pil_image];
    [left; eexists; reflexivity|].
  destruct (generate_content i MEDICAL_PROMPT pil_image)
    as [err|[text|]]; [| destruct (truthy text) |]; cbn [snd].
  - left. eexists. reflexivity.
  - right. eexists _, _, _. reflexivity.
  - left. eexists. reflexivity.
  - left. eexists. reflexivity.
Qed.

(** The session after a call. *)
Lemma call_session {PIL : Pillow} {DF : DateFormat} (i : Interaction) (st : SessionState) :
  is_call i = true ->
  (fst (snd (can_make_request (now_check i) st)) = true /\
   outcome (script i st) <> Denied limit_message
                              (remaining_time (now_wait i) st) /\
   allowed (outcome (script i st)) = true /\
   session (script i st) =
     update_request_tracker (now_record i)
       (fst (can_make_request (now_check i) st)))
  \/
  (fst (snd (can_make_request (now_check i) st)) = false /\
   outcome (script i st) = Denied limit_message
                             (remaining_time (now_wait i) st) /\
   session (script i st) = st).
Proof.
  unfold is_call, script. intros C.
  apply andb_true_iff in C. destruct C as [Hb C].
  destruct (uploaded_file i) as [f|]; [|discriminate].
  destruct (image_intake f) as [e|image]; [discriminate|].
  unfold analysis.
  destruct (can_make_request (now_check i) st) as [st1 [ok msg]] eqn:E.
  destruct ok; simpl.
  - left. rewrite Hb.
    destruct (generate_outcome f image i) as [[k G]|(t & r & fl & G)];
      destruct (generate f image i) as [fx out]; cbn [snd] in G; subst out;
      simpl; repeat split; try reflexivity; discriminate.
  - right.
    assert (D : fst (snd (can_make_request (now_check i) st)) = false)
      by (rewrite E; reflexivity).
    apply denied_inversion in D. destruct D as (D & _).
    rewrite E in D. injection D as -> ->.
    repeat split; reflexivity.
Qed.

(** An outcome [Denied] comes from a refusal of the limiter and carries the
    message and the wait computed on the session. *)
Lemma denied_outcome {PIL : Pillow} {DF : DateFormat} (i : Interaction) (st : SessionState)
  (msg : string) (wait : option Z) :
  outcome (script i st) = Denied msg wait ->
  fst (snd (can_make_request (now_check i) st)) = false /\
  wait = remaining_time (now_wait i) st.
Proof.
  unfold script.
  destruct (uploaded_file i) as [f|]; [|discriminate].
  destruct (image_intake f) as [e|image]; [discriminate|].
  unfold analysis.
  destruct (can_make_request (now_check i) st) as [st1 [ok m]] eqn:E.
  destruct ok; simpl.
  - destruct (button i); [|discriminate].
    destruct (generate_outcome f image i) as [[k G]|(t & r & fl & G)];
      destruct (generate f image i) as [fx out]; cbn [snd] in G; subst out;
      discriminate.
  - intros D. injection D as <- <-.
    assert (R : fst (snd (can_make_request (now_check i) st)) = false)
      by (rewrite E; reflexivity).
    apply denied_inversion in R. destruct R as (R & _).
    rewrite E in R. injection R as -> _.
    split; reflexivity.
Qed.

Lemma td_seconds_within_a_day (d : timedelta) :
  0 <= d < timedelta_seconds seconds_per_day ->
  td_seconds d = whole_seconds d.
Proof.
  unfold td_seconds, whole_seconds, timedelta_seconds. intros Hd.
  rewrite Z.mod_small by exact Hd. reflexivity.
Qed.

(** C4: [update_request_tracker] (the spec's record_request) sets
    [last_request_time] to the clock reading and adds exactly 1 to
    [request_count]; called once for each of N clock readings, it adds
    exactly N. *)
Theorem update_request_tracker_counts (st : SessionState) (now : datetime)
  (nows : list datetime) :
  last_request_time (update_request_tracker now st) = Some now /\
  request_count (update_request_tracker now st) = request_count st + 1 /\
  request_count (fold_left (fun s t => update_request_tracker t s) nows st)
    = request_count st + Z.of_nat (List.length nows).
Proof.
  split; [reflexivity|]. split; [reflexivity|].
  revert st. induction nows as [|t nows IH]; intros st.
  - simpl. lia.
  - cbn [fold_left List.length]. rewrite IH. cbn [update_request_tracker request_count].
    lia.
Qed.

(** C2: when the session's last request was at [t] and more than 60 seconds
    have passed since, the check resets the counter: the request is allowed
    and, once recorded, [request_count] is 1. *)
Theorem rollover_resets_counter (st : SessionState) (t now now' : datetime) :
  last_request_time st = Some t ->
  now - t > timedelta_seconds 60 ->
  fst (snd (can_make_request now st)) = true /\
  request_count (fst (can_make_request now st)) = 0 /\
  request_count
    (update_request_tracker now' (fst (can_make_request now st))) = 1.
Proof.
  intros Ht Hlate.
  assert (R : window_rolled_over now st = true).
  { unfold window_rolled_over. rewrite Ht. rewrite window_is_sixty_seconds.
    rewrite Z.gtb_ltb. apply Z.ltb_lt. lia. }
  destruct (can_make_request_cases now st) as [[_ E]|[(R' & _)|(R' & _)]];
    try congruence.
  rewrite E. simpl. repeat split; reflexivity.
Qed.

Lemma rollover_resets_counter_witness :
  let st := {| last_request_time := Some 0; request_count := 8 |} in
  fst (snd (can_make_request 60000001 st)) = true /\
  request_count (fst (can_make_request 60000001 st)) = 0 /\
  request_count
    (update_request_tracker 60000002 (fst (can_make_request 60000001 st))) = 1.
Proof.
  apply (rollover_resets_counter
           {| last_request_time := Some 0; request_count := 8 |} 0).
  - reflexivity.
  - unfold timedelta_seconds, microseconds_per_second. lia.
Defined.

(** The comparison of line 27 is strict: exactly 60 seconds after the last
    request the counter is kept, and a full session still refuses. *)
Lemma no_rollover_at_sixty_seconds :
  can_make_request (timedelta_seconds 60)
    {| last_request_time := Some 0; request_count := 8 |}
  = ({| last_request_time := Some 0; request_count := 8 |},
     (false, limit_message)).
Proof. reflexivity. Qed.

(** C5: when the limiter refuses, the execution leaves the session exactly
    as it found it and has no effect on the outside: in particular the model
    is not called. *)
Theorem denied_request_changes_nothing {PIL : Pillow} {DF : DateFormat}
  (i : Interaction) (st : SessionState) :
  fst (snd (can_make_request (now_check i) st)) = false ->
  fst (can_make_request (now_check i) st) = st /\
  session (script i st) = st /\
  effects (script i st) = [] /\
  existsb is_model_call (effects (script i st)) = false.
Proof.
  intros D. destruct (denied_inversion _ _ D) as (E & _).
  assert (S : session (script i st) = st /\ effects (script i st) = []).
  { unfold script.
    destruct (uploaded_file i) as [f|]; [|split; reflexivity].
    destruct (image_intake f) as [e|image]; [split; reflexivity|].
    unfold analysis. rewrite E. simpl. split; reflexivity. }
  destruct S as [S1 S2]. rewrite E, S1, S2. repeat split; reflexivity.
Qed.

Lemma denied_request_changes_nothing_witness :
  let st := {| last_request_time := Some 0; request_count := 8 |} in
  fst (snd (can_make_request (now_check (call_at 20)) st)) = false /\
  outcome (script (call_at 20) st) = Denied limit_message (Some 40) /\
  session (script (call_at 20) st) = st /\
  existsb is_model_call (effects (script (call_at 20) st)) = false.
Proof.
  pose proof (denied_request_changes_nothing (call_at 20)
                {| last_request_time := Some 0; request_count := 8 |}
                eq_refl) as (_ & S & _ & M).
  split; [reflexivity|]. split; [reflexivity|]. split; [exact S | exact M].
Defined.

(** [.seconds] is a component, not a duration: for a clock reading one
    second before the last request it is 86399, and the wait is negative. *)
Lemma remaining_time_clock_set_back :
  remaining_time (timedelta_seconds (-1))
    {| last_request_time := Some 0; request_count := 8 |}
  = Some (-86339).
Proof. reflexivity. Qed.

(** Whenever an execution ends in [Denied], the session holds a last
    request time [t], its counter is at or above the budget and the check
    fell within the window after [t]; the wait shown to the user is 60 minus
    the whole seconds between [t] and the clock reading of line 166, for a
    reading not earlier than [t] and less than a day after it.  For any
    reading it is 60 minus the whole seconds of that duration taken modulo
    one day. *)
Theorem denied_wait_is_sixty_minus_elapsed {PIL : Pillow} {DF : DateFormat}
  (i : Interaction) (st : SessionState) (msg : string) (wait : option Z) :
  outcome (script i st) = Denied msg wait ->
  exists t,
    last_request_time st = Some t /\
    budget <= request_count st /\
    now_check i - t <= timedelta_seconds 60 /\
    wait = Some (60 - ((now_wait i - t) mod (86400 * 1000000)) / 1000000) /\
    (0 <= now_wait i - t < timedelta_seconds seconds_per_day ->
     wait = Some (60 - whole_seconds (now_wait i - t))).
Proof.
  intros D. apply denied_outcome in D. destruct D as [D ->].
  apply denied_inversion in D. destruct D as (_ & B & t & Ht & Hw).
  exists t. unfold remaining_time. rewrite Ht.
  split; [reflexivity|]. split; [exact B|]. split; [exact Hw|].
  split; [reflexivity|].
  intros Hd. rewrite td_seconds_within_a_day by exact Hd. reflexivity.
Qed.

Lemma denied_wait_witness :
  let st := {| last_request_time := Some 0; request_count := 8 |} in
  outcome (script (call_at 20) st) = Denied limit_message (Some 40) /\
  exists t,
    last_request_time st = Some t /\
    budget <= request_count st /\
    now_check (call_at 20) - t <= timedelta_seconds 60 /\
    Some 40
    = Some (60 - ((now_wait (call_at 20) - t) mod (86400 * 1000000)) / 1000000) /\
    (0 <= now_wait (call_at 20) - t < timedelta_seconds seconds_per_day ->
     Some 40 = Some (60 - whole_seconds (now_wait (call_at 20) - t))).
Proof.
  split; [reflexivity|].
  exact (denied_wait_is_sixty_minus_elapsed (call_at 20)
           {| last_request_time := Some 0; request_count := 8 |}
           limit_message (Some 40) eq_refl).
Defined.

(** ** The counter stays within the budget *)

Lemma script_keeps_bounds {PIL : Pillow} {DF : DateFormat} (i : Interaction)
  (st : SessionState) :
  0 <= request_count st <= budget ->
  0 <= request_count (session (script i st)) <= budget.
Proof.
  intros B.
  assert (C : 0 <= request_count (fst (can_make_request (now_check i) st))
              <= budget).
  { destruct (can_make_request_cases (now_check i) st)
      as [[_ E]|[(_ & _ & E)|(_ & _ & E)]]; rewrite E; simpl;
      [unfold budget; lia | exact B | exact B]. }
  destruct (script_session i st) as [E|[E|[A E]]]; rewrite E.
  - exact B.
  - exact C.
  - apply allowed_inversion in A. destruct A as (_ & A & _).
    cbn [update_request_tracker request_count]. lia.
Qed.

Lemma reachable_session_after {PIL : Pillow} {DF : DateFormat}
  (steps : list Interaction) (st : SessionState) :
  reachable st -> reachable (session_after steps st).
Proof.
  revert st. induction steps as [|i steps IH]; intros st R.
  - exact R.
  - simpl. apply IH. apply reachable_script. exact R.
Qed.

Lemma session_after_eight_spaced_calls :
  session_after eight_spaced_calls initial_session =
  {| last_request_time := Some (timedelta_seconds 350); request_count := 8 |}.
Proof. vm_compute. reflexivity. Qed.

(** C10: every session the script can reach has [0 <= request_count <= 8];
    and the bound is attained: eight calls take a new session to 8. *)
Theorem request_count_within_budget :
  (forall (P : Pillow) (D : DateFormat) (st : SessionState),
      reachable st -> 0 <= request_count st <= 8) /\
  (exists st : SessionState,
      @reachable bitmaps seconds_format st /\ request_count st = 8).
Proof.
  split.
  - intros P D st R. change 8 with budget.
    induction R as [|i st R IH].
    + simpl. unfold budget. lia.
    + apply script_keeps_bounds. exact IH.
  - exists (session_after eight_spaced_calls initial_session). split.
    + apply reachable_session_after. apply reachable_initial.
    + rewrite session_after_eight_spaced_calls. reflexivity.
Qed.

Lemma request_count_within_budget_witness :
  0 <= request_count (session (script (call_at 0) initial_session)) <= 8.
Proof.
  apply (proj1 request_count_within_budget bitmaps seconds_format).
  apply reachable_script. apply reachable_initial.
Defined.

(** C3 fails on the code where the clock has been set back: after eight
    calls, the last one recorded at second 350, an execution that reads the
    clock at second 349 is denied (the difference of -1 second is not above
    one minute, and the counter is at 8) and is shown a wait of -86339
    seconds, where 60 minus the whole seconds elapsed since the last request
    is 61.  Line 166 takes [.seconds], a component of the normalised
    duration, for the duration. *)
Lemma denied_wait_after_clock_set_back :
  let st := session_after eight_spaced_calls initial_session in
  @reachable bitmaps seconds_format st /\
  last_request_time st = Some (timedelta_seconds 350) /\
  request_count st = 8 /\
  outcome (script (call_at 349) st)
  = Denied limit_message (Some (-86339)) /\
  60 - whole_seconds (now_wait (call_at 349) - timedelta_seconds 350) = 61.
Proof.
  cbv zeta. split; [|split; [|split; [|split]]].
  - apply reachable_session_after. apply reachable_initial.
  - rewrite session_after_eight_spaced_calls. reflexivity.
  - rewrite session_after_eight_spaced_calls. reflexivity.
  - rewrite session_after_eight_spaced_calls. vm_compute. reflexivity.
  - vm_compute. reflexivity.
Qed.

(** ** Calls within one window *)

Section Window.
Context {P : Pillow} {D : DateFormat}.
Variable w : datetime.

Lemma no_rollover_within (i : Interaction) (st : SessionState) :
  clock_within w i -> tracked_within w st ->
  window_rolled_over (now_check i) st = false.
Proof.
  intros [Hc _] (t & Ht & Hw). unfold window_rolled_over. rewrite Ht.
  rewrite Z.gtb_ltb. apply Z.ltb_ge. lia.
Qed.

(** What a call inside the window does to a session tracked inside it. *)
Lemma call_within (i : Interaction) (st : SessionState) :
  is_call i = true -> clock_within w i -> tracked_within w st ->
  (request_count st < budget /\
   allowed (outcome (script i st)) = true /\
   tracked_within w (session (script i st)) /\
   request_count (session (script i st)) = request_count st + 1)
  \/
  (budget <= request_count st /\
   allowed (outcome (script i st)) = false /\
   session (script i st) = st).
Proof.
  intros C W T. pose proof (no_rollover_within i st W T) as R.
  destruct (can_make_request_cases (now_check i) st)
    as [[R' _]|[(_ & B & E)|(_ & B & E)]]; [congruence| |].
  - left. destruct (call_session i st C) as [(_ & _ & A & S)|(Dn & _)].
    + rewrite S, E. simpl. repeat split; try assumption.
      exists (now_record i). split; [reflexivity|]. apply W.
    + rewrite E in Dn. discriminate.
  - right. destruct (call_session i st C) as [(A & _)|(_ & O & S)].
    + rewrite E in A. discriminate.
    + rewrite O. repeat split; assumption.
Qed.

(** What the first call inside the window does to a fresh session. *)
Lemma first_call_fresh (i : Interaction) (st : SessionState) :
  is_call i = true -> clock_within w i -> counter_fresh w st ->
  allowed (outcome (script i st)) = true /\
  tracked_within w (session (script i st)) /\
  request_count (session (script i st)) = 1.
Proof.
  intros C W F.
  assert (Z0 : fst (snd (can_make_request (now_check i) st)) = true /\
               request_count (fst (can_make_request (now_check i) st)) = 0).
  { destruct (can_make_request_cases (now_check i) st)
      as [[_ E]|[(R & B & E)|(R & B & E)]]; rewrite E; simpl.
    - split; reflexivity.
    - split; [reflexivity|].
      destruct (not_rolled_over _ _ R) as (t & Ht & Hw).
      unfold counter_fresh in F. rewrite Ht in F.
      destruct F as [F|F]; [exact F|]. destruct W as [Hc _]. lia.
    - exfalso.
      destruct (not_rolled_over _ _ R) as (t & Ht & Hw).
      unfold counter_fresh in F. rewrite Ht in F.
      destruct F as [F|F]; [unfold budget in B; lia|].
      destruct W as [Hc _]. lia. }
  destruct Z0 as [A Z0].
  destruct (call_session i st C) as [(_ & _ & Al & S)|(Dn & _)];
    [|congruence].
  rewrite S. cbn [update_request_tracker request_count]. rewrite Z0.
  repeat split; try assumption.
  exists (now_record i). split; [reflexivity|]. apply W.
Qed.

(** From a session tracked inside the window whose counter has seen [k]
    calls, the next calls are allowed up to the eighth. *)
Lemma flags_from (steps : list Interaction) :
  forall (st : SessionState) (k : nat),
    calls_within w steps -> tracked_within w st ->
    request_count st = Z.min (Z.of_nat k) budget ->
    map allowed (outcomes steps st)
    = map (fun j => Z.of_nat j <? budget) (seq k (List.length steps)).
Proof.
  induction steps as [|i steps IH]; intros st k Hc T Hk.
  - reflexivity.
  - inversion Hc as [|? ? [C W] Hc']; subst.
    cbn [outcomes map List.length seq].
    destruct (call_within i st C W T) as [(B & A & T' & N)|(B & A & S)].
    + rewrite A. replace (Z.of_nat k <? budget) with true
        by (symmetry; apply Z.ltb_lt; lia).
      f_equal. apply IH; try assumption. rewrite N. lia.
    + rewrite A, S. replace (Z.of_nat k <? budget) with false
        by (symmetry; apply Z.ltb_ge; lia).
      f_equal. apply IH; try assumption. lia.
Qed.

(** From a session tracked inside the window whose counter is at least [a],
    at most [8 - a] further calls are allowed. *)
Lemma allowed_bounded_from (steps : list Interaction) :
  forall (st : SessionState) (a : nat),
    calls_within w steps -> tracked_within w st ->
    Z.of_nat a <= request_count st -> (a <= 8)%nat ->
    (List.length (filter allowed (outcomes steps st)) + a <= 8)%nat.
Proof.
  induction steps as [|i steps IH]; intros st a Hc T Ha Ha8.
  - simpl. lia.
  - inversion Hc as [|? ? [C W] Hc']; subst.
    cbn [outcomes filter].
    destruct (call_within i st C W T) as [(B & A & T' & N)|(B & A & S)].
    + rewrite A. cbn [List.length].
      assert (a < 8)%nat by (unfold budget in B; lia).
      specialize (IH (session (script i st)) (S a) Hc' T').
      rewrite N in IH. lia.
    + rewrite A, S. apply IH; assumption.
Qed.

Lemma allowed_bounded (steps : list Interaction) :
  forall st : SessionState,
    calls_within w steps -> 0 <= request_count st ->
    (List.length (filter allowed (outcomes steps st)) <= 8)%nat.
Proof.
  induction steps as [|i steps IH]; intros st Hc H0.
  - simpl. lia.
  - inversion Hc as [|? ? [C W] Hc']; subst.
    cbn [outcomes filter].
    destruct (call_session i st C) as [(A & _ & Al & S)|(_ & O & S)].
    + rewrite Al. cbn [List.length].
      apply allowed_inversion in A. destruct A as (_ & _ & A).
      assert (T : tracked_within w (session (script i st))).
      { rewrite S. exists (now_record i). split; [reflexivity|]. apply W. }
      assert (N : 1 <= request_count (session (script i st))).
      { rewrite S. cbn [update_request_tracker request_count].
        destruct A as [A|A]; rewrite A; lia. }
      pose proof (allowed_bounded_from steps _ 1%nat Hc' T N) as L. lia.
    + rewrite O, S. cbn [allowed]. apply IH; assumption.
Qed.

End Window.

(** C1, as the code has it: for calls whose clock readings all lie in one
    60-second window starting at [w], (a) from any session with a counter
    that is not negative, at most 8 of them are allowed, so that after eight
    permitted calls every further call of the window is denied; (b) when the
    counter is fresh at [w] (no earlier request, a counter at 0, or a last
    request more than 60 seconds before [w]), exactly the first eight calls
    are allowed. *)
Theorem eight_calls_per_window {PIL : Pillow} {DF : DateFormat} (w : datetime)
  (steps : list Interaction) (st : SessionState) :
  calls_within w steps ->
  (0 <= request_count st ->
   (List.length (filter allowed (outcomes steps st)) <= 8)%nat) /\
  (counter_fresh w st ->
   map allowed (outcomes steps st)
   = map (fun j => Z.of_nat j <? 8) (seq 0 (List.length steps))).
Proof.
  intros Hc. split.
  - intros H0. apply (allowed_bounded w); assumption.
  - intros F. destruct steps as [|i steps]; [reflexivity|].
    inversion Hc as [|? ? [C W] Hc']; subst.
    destruct (first_call_fresh w i st C W F) as (A & T & N).
    cbn [outcomes map List.length seq]. rewrite A.
    f_equal. change 8 with budget.
    apply (flags_from w); [exact Hc' | exact T | rewrite N; reflexivity].
Qed.

Lemma eight_calls_per_window_witness :
  let steps := map call_at [0; 5; 10; 15; 20; 25; 30; 35; 40; 45] in
  (List.length (filter allowed (outcomes steps initial_session)) <= 8)%nat /\
  map allowed (outcomes steps initial_session)
  = [true; true; true; true; true; true; true; true; false; false].
Proof.
  assert (Hc : calls_within 0
                 (map call_at [0; 5; 10; 15; 20; 25; 30; 35; 40; 45]))
    by (unfold calls_within; cbn [map]; within_window).
  destruct (eight_calls_per_window 0 _ initial_session Hc) as [B F].
  split.
  - apply B. simpl. lia.
  - apply F. exact I.
Defined.

(** C1 as stated fails: after eight calls 50 seconds apart the session is
    reachable with its counter at 8 and its last request at second 350; the
    call at second 400 is then a single call inside the 60-second window
    starting at second 340, which holds only one earlier call, and it is
    denied. *)
Lemma ninth_spaced_call_denied :
  let st := session_after eight_spaced_calls initial_session in
  @reachable bitmaps seconds_format st /\
  calls_within (timedelta_seconds 340) [call_at 400] /\
  (List.length [call_at 400] <= 8)%nat /\
  List.length
    (filter (fun i => timedelta_seconds 340 <=? now_record i)
       (eight_spaced_calls ++ [call_at 400])%list) = 2%nat /\
  map allowed (outcomes [call_at 400] st) = [false] /\
  map allowed (outcomes (eight_spaced_calls ++ [call_at 400])%list
                 initial_session)
  = [true; true; true; true; true; true; true; true; false].
Proof.
  cbv zeta. split; [|split; [|split; [|split; [|split]]]].
  - apply reachable_session_after. apply reachable_initial.
  - unfold calls_within. within_window.
  - simpl. lia.
  - vm_compute. reflexivity.
  - vm_compute. reflexivity.
  - vm_compute. reflexivity.
Qed.

(** ** Image intake *)

Lemma intake_accepts {PIL : Pillow} (f : UploadedFile) (image : Image) :
  image_intake f = inr image ->
  file_size f <= max_size /\
  exists opened,
    image_open (getvalue f) = inr opened /\
    ensure_rgb opened = inr image /\
    st_image f image = None.
Proof.
  unfold image_intake.
  destruct (file_size f >? max_size) eqn:S; [discriminate|].
  rewrite Z.gtb_ltb in S. apply Z.ltb_ge in S.
  destruct (image_open (getvalue f)) as [err|opened]; [discriminate|].
  destruct (ensure_rgb opened) as [err|converted] eqn:Cv; [discriminate|].
  destruct (st_image f converted) as [err|] eqn:Dr; [discriminate|].
  intros E. injection E as <-. split; [exact S|].
  exists opened. repeat split; assumption.
Qed.

(** The intake of a payload within the size limit that [Image.open] takes. *)
Lemma intake_of_opened {PIL : Pillow} (f : UploadedFile) (opened : Image) :
  file_size f <= max_size ->
  image_open (getvalue f) = inr opened ->
  image_intake f
  = match ensure_rgb opened with
    | inl e => inl (Undecodable e)
    | inr image =>
        match st_image f image with
        | Some e => inl (Undecodable e)
        | None => inr image
        end
    end.
Proof.
  intros S O. unfold image_intake.
  replace (file_size f >? max_size) with false
    by (symmetry; rewrite Z.gtb_ltb; apply Z.ltb_ge; exact S).
  rewrite O. reflexivity.
Qed.

(** C7: the intake fails with [TooLarge] exactly when the payload has more
    than 5 * 1024 * 1024 bytes; a payload of 6 MiB is rejected, and one of
    4 MiB goes past the size check: it is never [TooLarge], and it is taken
    in when it is a valid picture, one that opens, comes out of the
    conversion step and can be drawn. *)
Theorem too_large_iff_over_five_mib {PIL : Pillow} (f : UploadedFile) :
  ((exists n, image_intake f = inl (TooLarge n))
   <-> 5 * 1024 * 1024 < Z.of_nat (List.length (getvalue f))) /\
  (file_size f = 6 * 1024 * 1024 ->
   image_intake f = inl (TooLarge (6 * 1024 * 1024))) /\
  (file_size f = 4 * 1024 * 1024 ->
   (forall n, image_intake f <> inl (TooLarge n)) /\
   (forall opened image,
       image_open (getvalue f) = inr opened ->
       ensure_rgb opened = inr image ->
       st_image f image = None ->
       image_intake f = inr image)).
Proof.
  change (Z.of_nat (List.length (getvalue f))) with (file_size f).
  change (5 * 1024 * 1024) with max_size.
  assert (Small : file_size f <= max_size ->
                  forall n, image_intake f <> inl (TooLarge n)).
  { intros S n. unfold image_intake.
    replace (file_size f >? max_size) with false
      by (symmetry; rewrite Z.gtb_ltb; apply Z.ltb_ge; exact S).
    destruct (image_open (getvalue f)) as [err|opened]; [discriminate|].
    destruct (ensure_rgb opened) as [err|image]; [discriminate|].
    destruct (st_image f image); discriminate. }
  destruct (Z_lt_le_dec max_size (file_size f)) as [S|S].
  - assert (E : image_intake f = inl (TooLarge (file_size f))).
    { unfold image_intake.
      replace (file_size f >? max_size) with true
        by (symmetry; rewrite Z.gtb_ltb; apply Z.ltb_lt; exact S).
      reflexivity. }
    split; [|split].
    + split; [intros _; exact S | intros _; eexists; exact E].
    + intros Six. rewrite E, Six. reflexivity.
    + intros Four. rewrite Four in S. unfold max_size in S. lia.
  - split; [|split].
    + split; [intros [n E]; destruct (Small S n E) | intros L; lia].
    + intros Six. rewrite Six in S. unfold max_size in S. lia.
    + intros _. split; [exact (Small S)|].
      intros opened image O Cv Dr.
      rewrite (intake_of_opened f opened S O), Cv, Dr. reflexivity.
Qed.

Lemma file_size_zeros (n : Z) (nm : string) :
  0 <= n -> file_size (mkUpload nm (zeros n)) = n.
Proof.
  intros Hn. unfold file_size, zeros. cbn [getvalue].
  rewrite repeat_length. apply Z2Nat.id. exact Hn.
Qed.

Lemma file_size_header_zeros (n : Z) (nm : string) (a b c : Byte.byte) :
  0 <= n -> file_size (mkUpload nm (a :: b :: c :: zeros n)) = 3 + n.
Proof.
  intros Hn. unfold file_size, zeros. cbn [getvalue List.length].
  rewrite repeat_length. rewrite !Nat2Z.inj_succ, Z2Nat.id by exact Hn. lia.
Qed.

Lemma too_large_iff_over_five_mib_witness :
  @image_intake bitmaps six_mib_upload = inl (TooLarge (6 * 1024 * 1024)) /\
  @image_intake bitmaps four_mib_upload
  = inr (mkBitmap "RGB" (100, 100) None).
Proof.
  split.
  - apply (too_large_iff_over_five_mib six_mib_upload).
    unfold six_mib_upload. apply file_size_zeros. lia.
  - destruct (too_large_iff_over_five_mib four_mib_upload) as (_ & _ & Four).
    destruct Four as [_ Accept].
    + unfold four_mib_upload. rewrite file_size_header_zeros by lia. lia.
    + apply (Accept (mkBitmap "L" (100, 100) (Some "PNG"))); reflexivity.
Defined.

(** The conversion step on its own (lines 139-140 and 184-185). *)
Lemma ensure_rgb_cases {PIL : Pillow} (img : Image) :
  (image_mode img = "RGB" /\ ensure_rgb img = inr img) \/
  (image_mode img <> "RGB" /\ ensure_rgb img = image_convert "RGB" img).
Proof.
  unfold ensure_rgb. destruct (String.eqb (image_mode img) "RGB") eqn:E.
  - left. apply String.eqb_eq in E. split; [exact E | reflexivity].
  - right. apply String.eqb_neq in E. split; [exact E | reflexivity].
Qed.

(** What the conversion step yields, given Pillow's contract. *)
Lemma ensure_rgb_yields {PIL : Pillow} {PC : PillowConvert PIL}
  (opened image : Image) :
  ensure_rgb opened = inr image ->
  image_mode image = "RGB" /\
  image_size image = image_size opened /\
  (image_mode opened = "RGB" -> image = opened) /\
  (image_mode opened <> "RGB" -> image_convert "RGB" opened = inr image).
Proof.
  intros Y. destruct (ensure_rgb_cases opened) as [[M E]|[M E]];
    rewrite E in Y.
  - injection Y as <-. split; [exact M|]. split; [reflexivity|].
    split; [reflexivity | intros N; contradiction].
  - split; [exact (convert_rgb_mode _ _ Y)|].
    split; [exact (convert_rgb_size _ _ Y)|].
    split; [intros N; contradiction | intros _; exact Y].
Qed.



(** ** Outcome of the model call *)

(** C6: for a call that passed the limiter, the model is asked once, with
    the fixed prompt and the picture taken in, and the outcome is: the
    success carrying the text when the text is not empty; [EmptyResponse]
    when the text is empty or absent; for an exception, in this order,
    [ProviderRateLimited] when its message contains 429 or, lowered,
    quota; [SafetyRejected] when, lowered, it contains safety;
    [ProviderError] with the message otherwise. *)
Theorem outcome_classification {PIL : Pillow} {DF : DateFormat}
  (i : Interaction) (st : SessionState) (f : UploadedFile) (image : Image) :
  uploaded_file i = Some f ->
  image_intake f = inr image ->
  fst (snd (can_make_request (now_check i) st)) = true ->
  button i = true ->
  effects (script i st) = [Sleep 3; GenerateContent MEDICAL_PROMPT image] /\
  (forall text,
      generate_content i MEDICAL_PROMPT image = Responded (Some text) ->
      text <> "" ->
      exists report file, outcome (script i st) = Succeeded text report file) /\
  (generate_content i MEDICAL_PROMPT image = Responded None \/
   generate_content i MEDICAL_PROMPT image = Responded (Some "") ->
   outcome (script i st) = Failed EmptyResponse) /\
  (forall msg,
      generate_content i MEDICAL_PROMPT image = Raised msg ->
      str_in "429" msg = true \/ str_in "quota" (lower msg) = true ->
      outcome (script i st) = Failed ProviderRateLimited) /\
  (forall msg,
      generate_content i MEDICAL_PROMPT image = Raised msg ->
      str_in "429" msg = false -> str_in "quota" (lower msg) = false ->
      str_in "safety" (lower msg) = true ->
      outcome (script i st) = Failed SafetyRejected) /\
  (forall msg,
      generate_content i MEDICAL_PROMPT image = Raised msg ->
      str_in "429" msg = false -> str_in "quota" (lower msg) = false ->
      str_in "safety" (lower msg) = false ->
      outcome (script i st) = Failed (ProviderError msg)).
Proof.
  intros U I A B.
  destruct (intake_accepts f image I) as (_ & opened & O & Cv & _).
  unfold script, analysis, generate. rewrite U, I.
  destruct (can_make_request (now_check i) st) as [st1 [ok m]].
  simpl in A. subst ok. cbn [negb]. rewrite B, O, Cv.
  destruct (generate_content i MEDICAL_PROMPT image)
    as [err|[text|]] eqn:G.
  - cbn [effects outcome]. unfold classify_exception.
    split; [reflexivity|]. split; [discriminate|].
    split; [intros [E|E]; discriminate E|].
    split; [|split]; intros msg E; injection E as <-.
    + intros [R|R]; rewrite R; [reflexivity | rewrite orb_true_r; reflexivity].
    + intros -> -> ->. reflexivity.
    + intros -> -> ->. reflexivity.
  - destruct text as [|c text]; cbn [truthy effects outcome].
    + split; [reflexivity|]. split.
      * intros t E. injection E as <-. intros N. contradiction.
      * split; [reflexivity|]. repeat split; discriminate.
    + split; [reflexivity|]. split.
      * intros t E. injection E as <-. intros _. eexists _, _. reflexivity.
      * split; [intros [E|E]; discriminate E|]. repeat split; discriminate.
  - cbn [effects outcome]. split; [reflexivity|]. split; [discriminate|].
    split; [reflexivity|]. repeat split; discriminate.
Qed.

Lemma outcome_classification_witness :
  let run g := outcome (script (with_reply g (call_at 0)) initial_session) in
  run (Raised "429 Resource has been exhausted") = Failed ProviderRateLimited /\
  run (Raised "Quota exceeded for model") = Failed ProviderRateLimited /\
  run (Raised "Blocked by SAFETY settings") = Failed SafetyRejected /\
  run (Raised "500 Internal error") = Failed (ProviderError "500 Internal error") /\
  run (Responded (Some "")) = Failed EmptyResponse /\
  run (Responded None) = Failed EmptyResponse.
Proof.
  assert (C : forall g,
             let i := with_reply g (call_at 0) in
             uploaded_file i = Some gray_upload /\
             image_intake gray_upload
             = inr (mkBitmap "RGB" (100, 100) None) /\
             fst (snd (can_make_request (now_check i) initial_session)) = true /\
             button i = true)
    by (intros g; repeat split).
  cbv beta zeta.
  repeat match goal with
  | |- outcome (script (with_reply ?g _) _) = _ /\ _ => split
  end;
  match goal with
  | |- outcome (script (with_reply ?g _) _) = _ =>
      destruct (C g) as (U & I & A & B);
      pose proof (outcome_classification _ _ _ _ U I A B)
        as (_ & _ & E & R & S & O)
  end.
  - apply (R _ eq_refl). left. reflexivity.
  - apply (R _ eq_refl). right. reflexivity.
  - apply (S _ eq_refl); reflexivity.
  - apply (O _ eq_refl); reflexivity.
  - apply E. right. reflexivity.
  - apply E. left. reflexivity.
Defined.

(** ** The report *)

Lemma str_in_skip (needle a b : string) :
  str_in needle b = true -> str_in needle (a ++ b) = true.
Proof.
  intros Hb. induction a as [|c a IH]; simpl.
  - exact Hb.
  - rewrite IH. apply orb_true_r.
Qed.

Lemma str_in_head (needle post : string) :
  str_in needle (needle ++ post) = true.
Proof. apply str_in_startswith, startswith_append. Qed.

Lemma str_in_self (s : string) : str_in s s = true.
Proof.
  apply str_in_spec. exists "", "". simpl.
  induction s as [|c s IH]; simpl; [reflexivity | rewrite <- IH; reflexivity].
Qed.

Lemma report_holds_text_and_disclaimer (generated image_name : string)
  (size : Z * Z) (text : string) :
  str_in text (report_content generated image_name size text) = true /\
  str_in DISCLAIMER (report_content generated image_name size text) = true.
Proof.
  unfold report_content. split.
  - do 10 apply str_in_skip. apply str_in_head.
  - do 12 apply str_in_skip. apply str_in_self.
Qed.

(** A success comes with the report built from the upload's name, the size
    of the picture taken in, the text and the rendered clock reading. *)
Lemma succeeded_report {PIL : Pillow} {DF : DateFormat} (i : Interaction)
  (st : SessionState) (text report file : string) :
  outcome (script i st) = Succeeded text report file ->
  exists f image,
    uploaded_file i = Some f /\ image_intake f = inr image /\
    report = report_content (strftime "%Y-%m-%d %H:%M:%S" (now_report i))
               (name f) (image_size image) text.
Proof.
  unfold script.
  destruct (uploaded_file i) as [f|]; [|discriminate].
  destruct (image_intake f) as [e|image] eqn:I; [discriminate|].
  unfold analysis.
  destruct (can_make_request (now_check i) st) as [st1 [ok m]].
  destruct ok; cbn [negb]; [|discriminate].
  destruct (button i); [|discriminate].
  unfold generate.
  destruct (image_open (getvalue f)) as [err|opened]; [discriminate|].
  destruct (ensure_rgb opened) as [err|pil_image]; [discriminate|].
  destruct (generate_content i MEDICAL_PROMPT pil_image)
    as [err|[t|]]; [discriminate | | discriminate].
  destruct (truthy t); [|discriminate].
  cbn [outcome]. intros E. injection E as -> <- _.
  exists f, image. split; [reflexivity|]. split; [exact I | reflexivity].
Qed.

(** C9: the report of every success contains the analysis text and the
    disclaimer block, each as written; and the report is a function of its
    inputs: the rendered timestamp, the image name, the size and the text. *)
Theorem report_contains_text_and_disclaimer {PIL : Pillow} {DF : DateFormat}
  (i : Interaction) (st : SessionState) (text report file : string) :
  outcome (script i st) = Succeeded text report file ->
  (exists pre post, report = pre ++ text ++ post) /\
  (exists pre post, report = pre ++ DISCLAIMER ++ post) /\
  str_in text report = true /\
  str_in DISCLAIMER report = true /\
  (forall g n s t g' n' s' t',
      g = g' -> n = n' -> s = s' -> t = t' ->
      report_content g n s t = report_content g' n' s' t').
Proof.
  intros S. apply succeeded_report in S.
  destruct S as (f & image & _ & _ & ->).
  destruct (report_holds_text_and_disclaimer
              (strftime "%Y-%m-%d %H:%M:%S" (now_report i))
              (name f) (image_size image) text) as [T Dc].
  split; [apply str_in_spec; exact T|].
  split; [apply str_in_spec; exact Dc|].
  split; [exact T|]. split; [exact Dc|].
  intros g n s t g' n' s' t' -> -> -> ->. reflexivity.
Qed.

Lemma report_contains_text_and_disclaimer_witness :
  let report :=
    report_content "0" "scan.png" (100, 100) "X-ray" in
  outcome (script (call_at 0) initial_session)
  = Succeeded "X-ray" report "medical_analysis_0.txt" /\
  str_in "X-ray" report = true /\
  str_in DISCLAIMER report = true.
Proof.
  split; [reflexivity|].
  destruct (@report_contains_text_and_disclaimer bitmaps seconds_format
              (call_at 0) initial_session "X-ray"
              (report_content "0" "scan.png" (100, 100) "X-ray")
              "medical_analysis_0.txt" eq_refl) as (_ & _ & T & Dc & _).
  split; [exact T | exact Dc].
Defined.

(** * Further properties of the script *)

(** ** One execution, by cases *)

(** The four ways through the script: stopped before the limiter, refused,
    let through without a press, and let through with a press. *)
Lemma script_cases {PIL : Pillow} {DF : DateFormat} (i : Interaction)
  (st : SessionState) :
  ((outcome (script i st) = NoUpload \/
    exists e, outcome (script i st) = Rejected e) /\
   session (script i st) = st /\ effects (script i st) = [])
  \/
  (fst (snd (can_make_request (now_check i) st)) = false /\
   outcome (script i st)
   = Denied limit_message (remaining_time (now_wait i) st) /\
   session (script i st) = st /\ effects (script i st) = [])
  \/
  (fst (snd (can_make_request (now_check i) st)) = true /\
   button i = false /\
   outcome (script i st) = Ready /\
   session (script i st) = fst (can_make_request (now_check i) st) /\
   effects (script i st) = [])
  \/
  (fst (snd (can_make_request (now_check i) st)) = true /\
   button i = true /\
   session (script i st)
   = update_request_tracker (now_record i)
       (fst (can_make_request (now_check i) st)) /\
   (exists f opened image,
       uploaded_file i = Some f /\
       image_open (getvalue f) = inr opened /\
       ensure_rgb opened = inr image /\
       image_intake f = inr image /\
       effects (script i st)
       = [Sleep 3; GenerateContent MEDICAL_PROMPT image]) /\
   ((exists k, outcome (script i st) = Failed k) \/
    (exists text report file,
        outcome (script i st) = Succeeded text report file))).
Proof.
  unfold script.
  destruct (uploaded_file i) as [f|] eqn:U.
  2:{ left. split; [left; reflexivity | split; reflexivity]. }
  destruct (image_intake f) as [e|image] eqn:I.
  { left. split; [right; exists e; reflexivity | split; reflexivity]. }
  right.
  destruct (intake_accepts f image I) as (_ & opened & O & Cv & _).
  unfold analysis.
  destruct (can_make_request (now_check i) st) as [st1 [ok m]] eqn:E.
  destruct ok; cbn [negb fst snd].
  - right. destruct (button i) eqn:B.
    + right. unfold generate. rewrite O, Cv.
      destruct (generate_content i MEDICAL_PROMPT image)
        as [err|[text|]]; [| destruct (truthy text) |];
        cbn [session outcome effects];
        (split; [reflexivity|]; split; [reflexivity|];
         split; [reflexivity|];
         split; [exists f, opened, image; repeat split; assumption|]).
      * left. eexists. reflexivity.
      * right. eexists _, _, _. reflexivity.
      * left. eexists. reflexivity.
      * left. eexists. reflexivity.
    + left. repeat split.
  - left.
    assert (D : fst (snd (can_make_request (now_check i) st)) = false)
      by (rewrite E; reflexivity).
    apply denied_inversion in D. destruct D as (D & _).
    rewrite E in D. injection D as -> ->.
    repeat split.
Qed.

(** ** The limiter over time *)

(** Waiting never hurts: a session that lets a request through at one
    clock reading lets it through at every later one. *)
Theorem allowed_stays_allowed (st : SessionState) (now now' : datetime) :
  now <= now' ->
  fst (snd (can_make_request now st)) = true ->
  fst (snd (can_make_request now' st)) = true.
Proof.
  intros Hle A.
  destruct (can_make_request_cases now st)
    as [[R _]|[(_ & B & _)|(_ & _ & E)]].
  - assert (R' : window_rolled_over now' st = true).
    { unfold window_rolled_over in *.
      destruct (last_request_time st) as [t|]; [|reflexivity].
      rewrite Z.gtb_ltb in *. apply Z.ltb_lt in R. apply Z.ltb_lt. lia. }
    destruct (can_make_request_cases now' st)
      as [[_ E']|[(R2 & _)|(R2 & _)]]; try congruence.
    rewrite E'. reflexivity.
  - destruct (can_make_request_cases now' st)
      as [[_ E']|[(_ & _ & E')|(_ & B' & _)]];
      try (rewrite E'; reflexivity). lia.
  - rewrite E in A. discriminate A.
Qed.

Lemma allowed_stays_allowed_witness :
  let st := {| last_request_time := Some 0; request_count := 8 |} in
  fst (snd (can_make_request (timedelta_seconds 90) st)) = true.
Proof.
  apply (allowed_stays_allowed
           {| last_request_time := Some 0; request_count := 8 |}
           (timedelta_seconds 61) (timedelta_seconds 90)).
  - vm_compute. discriminate.
  - reflexivity.
Defined.

(** Looking costs nothing: an execution in which the button is not pressed
    has no effect outside, keeps [last_request_time], and leaves the counter
    as it was or at 0. *)
Theorem unpressed_execution_costs_nothing {PIL : Pillow} {DF : DateFormat}
  (i : Interaction) (st : SessionState) :
  button i = false ->
  effects (script i st) = [] /\
  last_request_time (session (script i st)) = last_request_time st /\
  (request_count (session (script i st)) = request_count st \/
   request_count (session (script i st)) = 0).
Proof.
  intros B.
  destruct (script_cases i st)
    as [(_ & S & F)|[(_ & _ & S & F)|[(A & _ & _ & S & F)|(_ & B' & _)]]];
    try congruence.
  - rewrite S, F. repeat split. left. reflexivity.
  - rewrite S, F. repeat split. left. reflexivity.
  - rewrite S, F. destruct (allowed_inversion _ _ A) as (L & _ & [Z0|Same]).
    + split; [reflexivity|]. split; [exact L | right; exact Z0].
    + rewrite Same. repeat split. left. reflexivity.
Qed.

Lemma unpressed_execution_costs_nothing_witness :
  let st := {| last_request_time := Some 0; request_count := 5 |} in
  let i := mkInteraction (Some gray_upload) false
             (timedelta_seconds 70) 0 0 0 0
             (fun _ _ => Responded (Some "X-ray")) in
  effects (script i st) = [] /\
  last_request_time (session (script i st)) = Some 0 /\
  (request_count (session (script i st)) = 5 \/
   request_count (session (script i st)) = 0).
Proof.
  exact (unpressed_execution_costs_nothing
           (mkInteraction (Some gray_upload) false
              (timedelta_seconds 70) 0 0 0 0
              (fun _ _ => Responded (Some "X-ray")))
           {| last_request_time := Some 0; request_count := 5 |} eq_refl).
Defined.

(** In a reachable session without the time of a request the counter is 0. *)
Lemma no_time_no_count {PIL : Pillow} {DF : DateFormat} (st : SessionState) :
  reachable st -> last_request_time st = None -> request_count st = 0.
Proof.
  intros R. induction R as [|i st R IH]; [reflexivity|].
  destruct (script_cases i st)
    as [(_ & S & _)|[(_ & _ & S & _)|[(A & _ & _ & S & _)|(_ & _ & S & _)]]];
    rewrite S.
  - exact IH.
  - exact IH.
  - destruct (allowed_inversion _ _ A) as (L & _ & [Z0|Same]).
    + intros _. exact Z0.
    + rewrite Same. exact IH.
  - cbn [update_request_tracker last_request_time]. discriminate.
Qed.

(** A session that never recorded a request has its counter at 0; so a
    counter above 0 always comes with the time of a request, the
    subtraction of line 166 has a datetime to work on, and the sidebar shows
    a "Last request" line. *)
Theorem counted_requests_have_a_time {PIL : Pillow} {DF : DateFormat}
  (st : SessionState) :
  reachable st ->
  (last_request_time st = None -> request_count st = 0) /\
  (0 < request_count st ->
   forall now, remaining_time now st <> None) /\
  (0 < request_count st -> List.length (usage_stats st) = 2%nat).
Proof.
  intros R. pose proof (no_time_no_count st R) as Inv.
  split; [exact Inv|].
  unfold remaining_time, usage_stats.
  destruct (last_request_time st) as [t|].
  - split; [intros _ now; discriminate | intros _; reflexivity].
  - split; intros Pos; rewrite Inv in Pos by reflexivity; lia.
Qed.

Lemma counted_requests_have_a_time_witness :
  let st := session_after eight_spaced_calls initial_session in
  (last_request_time st = None -> request_count st = 0) /\
  (0 < request_count st -> forall now, remaining_time now st <> None) /\
  (0 < request_count st -> List.length (usage_stats st) = 2%nat).
Proof.
  apply (@counted_requests_have_a_time bitmaps seconds_format).
  apply reachable_session_after. apply reachable_initial.
Defined.

(** Refused attempts do not extend the lock-out: with the budget used up
    and the last request at [t], executions checked up to 60 seconds after
    [t] leave the session as it is, whatever they are; and the first check
    after that is let through. *)
Theorem refusals_do_not_extend_lockout {PIL : Pillow} {DF : DateFormat}
  (st : SessionState) (t : datetime) (steps : list Interaction)
  (now : datetime) :
  last_request_time st = Some t ->
  budget <= request_count st ->
  Forall (fun i => now_check i - t <= window) steps ->
  now - t > window ->
  session_after steps st = st /\
  all_effects steps st = [] /\
  Forall (fun o => o = NoUpload \/ (exists e, o = Rejected e) \/
                   exists r, o = Denied limit_message r)
         (outcomes steps st) /\
  fst (snd (can_make_request now (session_after steps st))) = true.
Proof.
  intros Ht B Hs Hnow.
  assert (Step : forall i, now_check i - t <= window ->
            session (script i st) = st /\ effects (script i st) = [] /\
            (outcome (script i st) = NoUpload \/
             (exists e, outcome (script i st) = Rejected e) \/
             exists r, outcome (script i st) = Denied limit_message r)).
  { intros i Hi.
    assert (D : fst (snd (can_make_request (now_check i) st)) = false).
    { destruct (can_make_request_cases (now_check i) st)
        as [[R _]|[(_ & B' & _)|(_ & _ & E)]].
      - unfold window_rolled_over in R. rewrite Ht in R.
        rewrite Z.gtb_ltb in R. apply Z.ltb_lt in R. lia.
      - lia.
      - rewrite E. reflexivity. }
    destruct (script_cases i st)
      as [(O & S & F)|[(_ & O & S & F)|[(A & _)|(A & _)]]];
      try congruence.
    - split; [exact S|]. split; [exact F|].
      destruct O as [O|O]; [left; exact O | right; left; exact O].
    - split; [exact S|]. split; [exact F|].
      right. right. eexists. exact O. }
  assert (Run : session_after steps st = st /\ all_effects steps st = [] /\
                Forall (fun o => o = NoUpload \/ (exists e, o = Rejected e) \/
                                 exists r, o = Denied limit_message r)
                       (outcomes steps st)).
  { induction Hs as [|i steps Hi Hs IH]; cbn [session_after all_effects outcomes].
    - repeat split. constructor.
    - destruct (Step i Hi) as (S & F & O). rewrite S, F.
      destruct IH as (IH1 & IH2 & IH3).
      split; [exact IH1|]. split; [exact IH2|].
      constructor; assumption. }
  destruct Run as (R1 & R2 & R3).
  split; [exact R1|]. split; [exact R2|]. split; [exact R3|].
  rewrite R1.
  destruct (can_make_request_cases now st) as [[_ E]|[(R & _)|(R & _)]].
  - rewrite E. reflexivity.
  - destruct (not_rolled_over _ _ R) as (t' & Ht' & Hw). rewrite Ht in Ht'.
    injection Ht' as <-. lia.
  - destruct (not_rolled_over _ _ R) as (t' & Ht' & Hw). rewrite Ht in Ht'.
    injection Ht' as <-. lia.
Qed.

Lemma refusals_do_not_extend_lockout_witness :
  let st := {| last_request_time := Some 0; request_count := 8 |} in
  let steps := map call_at [10; 30; 60] in
  session_after steps st = st /\
  all_effects steps st = [] /\
  Forall (fun o => o = NoUpload \/ (exists e, o = Rejected e) \/
                   exists r, o = Denied limit_message r)
         (outcomes steps st) /\
  fst (snd (can_make_request (timedelta_seconds 61)
              (session_after steps st))) = true.
Proof.
  apply (@refusals_do_not_extend_lockout bitmaps seconds_format
           {| last_request_time := Some 0; request_count := 8 |} 0).
  - reflexivity.
  - vm_compute. discriminate.
  - repeat (apply Forall_cons || apply Forall_nil);
      vm_compute; discriminate.
  - vm_compute. reflexivity.
Defined.

(** A refusal, taken apart: the session, the time of its last request and
    the wait that is shown. *)
Lemma denied_anatomy {PIL : Pillow} {DF : DateFormat} (i : Interaction)
  (st : SessionState) (msg : string) (wait : option Z) (t : datetime) :
  outcome (script i st) = Denied msg wait ->
  last_request_time st = Some t ->
  session (script i st) = st /\
  budget <= request_count st /\
  wait = Some (60 - td_seconds (now_wait i - t)).
Proof.
  intros O Ht. destruct (denied_outcome i st msg wait O) as [D ->].
  destruct (denied_inversion _ _ D) as (_ & B & _).
  split; [|split; [exact B|]].
  - destruct (script_cases i st)
      as [(_ & S & _)|[(_ & _ & S & _)|[(A & _)|(A & _)]]];
      try congruence; exact S.
  - unfold remaining_time. rewrite Ht. reflexivity.
Qed.

Ltac clock_arith :=
  unfold td_seconds, whole_seconds, timedelta_seconds, window,
    timedelta_minutes, seconds_per_day, microseconds_per_second, budget in *;
  Z.div_mod_to_equations; lia.

(** The wait shown with a refusal, for a clock that has not gone back: it is
    between 0 and 60 seconds; one second more than it is always enough; the
    shown wait itself is enough exactly when the time since the last request
    is not a whole number of seconds. *)
Theorem advertised_wait_is_enough {PIL : Pillow} {DF : DateFormat}
  (i : Interaction) (st : SessionState) (msg : string) (r : Z)
  (t : datetime) :
  outcome (script i st) = Denied msg (Some r) ->
  last_request_time st = Some t ->
  0 <= now_wait i - t <= window ->
  0 <= r <= 60 /\
  (forall now,
      now_wait i + timedelta_seconds (r + 1) <= now ->
      fst (snd (can_make_request now (session (script i st)))) = true) /\
  (fst (snd (can_make_request (now_wait i + timedelta_seconds r)
               (session (script i st)))) = true
   <-> (now_wait i - t) mod 1000000 <> 0).
Proof.
  intros O Ht He.
  destruct (denied_anatomy i st msg (Some r) t O Ht) as (S & B & W).
  assert (Hr : r = 60 - td_seconds (now_wait i - t)) by congruence.
  clear W O. subst r. rewrite S.
  assert (Verdict : forall now,
            fst (snd (can_make_request now st)) = true <-> now - t > window).
  { intros now.
    destruct (can_make_request_cases now st)
      as [[R E]|[(_ & B' & _)|(R & _ & E)]]; [| lia |].
    - rewrite E. cbn [fst snd]. split; [intros _|reflexivity].
      unfold window_rolled_over in R. rewrite Ht in R.
      rewrite Z.gtb_ltb in R. apply Z.ltb_lt in R. lia.
    - rewrite E. cbn [fst snd]. split; [discriminate|]. intros L.
      destruct (not_rolled_over _ _ R) as (t' & Ht' & Hw).
      rewrite Ht in Ht'. injection Ht' as <-. lia. }
  split; [clock_arith|]. split.
  - intros now Hnow. apply Verdict. clock_arith.
  - rewrite Verdict. clock_arith.
Qed.

Lemma advertised_wait_is_enough_witness :
  let st := {| last_request_time := Some 0; request_count := 8 |} in
  0 <= 40 <= 60 /\
  (forall now,
      now_wait (call_at 20) + timedelta_seconds (40 + 1) <= now ->
      fst (snd (can_make_request now (session (script (call_at 20) st))))
      = true) /\
  (fst (snd (can_make_request (now_wait (call_at 20) + timedelta_seconds 40)
               (session (script (call_at 20) st)))) = true
   <-> (now_wait (call_at 20) - 0) mod 1000000 <> 0).
Proof.
  apply (@advertised_wait_is_enough bitmaps seconds_format (call_at 20)
           {| last_request_time := Some 0; request_count := 8 |}
           limit_message 40 0).
  - reflexivity.
  - reflexivity.
  - vm_compute. split; discriminate.
Defined.

(** ** What reaches the provider *)

Lemma count_model_calls_app {PIL : Pillow} (a b : list Effect) :
  count_model_calls (a ++ b)%list
  = (count_model_calls a + count_model_calls b)%nat.
Proof.
  unfold count_model_calls. rewrite filter_app, length_app. reflexivity.
Qed.

Section AnyExecution.
Context {PIL : Pillow} {DF : DateFormat}.
Variable w : datetime.

(** Any execution inside the window, on a session tracked inside it:
    nothing happens, or the counter was below the budget and one request
    goes out and is counted. *)
Lemma execution_tracked (i : Interaction) (st : SessionState) :
  clock_within w i -> tracked_within w st ->
  (session (script i st) = st /\ effects (script i st) = [])
  \/
  (request_count st < budget /\
   tracked_within w (session (script i st)) /\
   request_count (session (script i st)) = request_count st + 1 /\
   count_model_calls (effects (script i st)) = 1%nat).
Proof.
  intros W T. pose proof (no_rollover_within w i st W T) as R.
  assert (E : fst (can_make_request (now_check i) st) = st /\
              (fst (snd (can_make_request (now_check i) st)) = true ->
               request_count st < budget)).
  { destruct (can_make_request_cases (now_check i) st)
      as [[R' _]|[(_ & B & E)|(_ & B & E)]]; [congruence| |];
      rewrite E; cbn [fst snd]; split; try reflexivity.
    - intros _. exact B.
    - discriminate. }
  destruct E as [E Below].
  destruct (script_cases i st)
    as [(_ & S & F)|[(_ & _ & S & F)|[(_ & _ & _ & S & F)|
                                       (A & _ & S & Fx & _)]]].
  - left. split; assumption.
  - left. split; assumption.
  - left. rewrite S, E. split; [reflexivity | exact F].
  - right. destruct Fx as (f & opened & image & _ & _ & _ & _ & F).
    rewrite S, E, F. split; [exact (Below A)|]. split; [|split].
    + exists (now_record i). split; [reflexivity | apply W].
    + reflexivity.
    + reflexivity.
Qed.

(** Any execution inside the window, on any session whose counter is not
    negative. *)
Lemma execution_any (i : Interaction) (st : SessionState) :
  clock_within w i -> 0 <= request_count st ->
  (effects (script i st) = [] /\ 0 <= request_count (session (script i st)))
  \/
  (tracked_within w (session (script i st)) /\
   1 <= request_count (session (script i st)) /\
   count_model_calls (effects (script i st)) = 1%nat).
Proof.
  intros W H0.
  assert (C : 0 <= request_count (fst (can_make_request (now_check i) st))).
  { destruct (can_make_request_cases (now_check i) st)
      as [[_ E]|[(_ & _ & E)|(_ & _ & E)]]; rewrite E; cbn [fst request_count];
      lia. }
  destruct (script_cases i st)
    as [(_ & S & F)|[(_ & _ & S & F)|[(_ & _ & _ & S & F)|
                                       (_ & _ & S & Fx & _)]]].
  - left. rewrite S. split; assumption.
  - left. rewrite S. split; assumption.
  - left. rewrite S. split; assumption.
  - right. destruct Fx as (f & opened & image & _ & _ & _ & _ & F). rewrite S, F.
    split; [|split].
    + exists (now_record i). split; [reflexivity | apply W].
    + cbn [update_request_tracker request_count]. lia.
    + reflexivity.
Qed.

Lemma provider_bounded_from (steps : list Interaction) :
  forall (st : SessionState) (a : nat),
    Forall (clock_within w) steps -> tracked_within w st ->
    Z.of_nat a <= request_count st -> (a <= 8)%nat ->
    (count_model_calls (all_effects steps st) + a <= 8)%nat.
Proof.
  induction steps as [|i steps IH]; intros st a Hs T Ha Ha8.
  - cbn. lia.
  - inversion Hs as [|? ? W Hs']; subst.
    cbn [all_effects]. rewrite count_model_calls_app.
    destruct (execution_tracked i st W T) as [(S & F)|(B & T' & N & One)].
    + rewrite S, F. cbn [count_model_calls filter List.length].
      apply IH; assumption.
    + rewrite One.
      assert (a < 8)%nat by (unfold budget in B; lia).
      specialize (IH (session (script i st)) (S a) Hs' T').
      rewrite N in IH. lia.
Qed.

End AnyExecution.

(** Whatever the user does, the provider is sent at most 8 requests in any
    60-second window: over executions of any kind whose clock readings lie
    in one window, from any session with a counter that is not negative. *)
Theorem provider_sees_at_most_eight_per_window {PIL : Pillow}
  {DF : DateFormat} (w : datetime) (steps : list Interaction)
  (st : SessionState) :
  Forall (clock_within w) steps ->
  0 <= request_count st ->
  (count_model_calls (all_effects steps st) <= 8)%nat.
Proof.
  revert st. induction steps as [|i steps IH]; intros st Hs H0.
  - cbn. lia.
  - inversion Hs as [|? ? W Hs']; subst.
    cbn [all_effects]. rewrite count_model_calls_app.
    destruct (execution_any w i st W H0) as [(F & C)|(T & N & One)].
    + rewrite F. cbn [count_model_calls filter List.length].
      apply IH; assumption.
    + rewrite One.
      pose proof (provider_bounded_from w steps _ 1%nat Hs' T N) as L. lia.
Qed.

Lemma provider_sees_at_most_eight_per_window_witness :
  let steps := map call_at [0; 5; 10; 15; 20; 25; 30; 35; 40; 45] in
  (count_model_calls (all_effects steps initial_session) <= 8)%nat.
Proof.
  apply (@provider_sees_at_most_eight_per_window bitmaps seconds_format 0).
  - cbn [map].
    repeat (apply Forall_cons || apply Forall_nil);
      vm_compute; intuition discriminate.
  - vm_compute. discriminate.
Defined.

(** A failed analysis uses up budget like a successful one: when an
    execution ends in [Failed], the request was let through, was sent to the
    model once, and the tracker holds the reading of line 38 and one more
    request than the limiter had found. *)
Theorem failed_requests_are_counted {PIL : Pillow} {DF : DateFormat}
  (i : Interaction) (st : SessionState) (k : Failure) :
  outcome (script i st) = Failed k ->
  fst (snd (can_make_request (now_check i) st)) = true /\
  count_model_calls (effects (script i st)) = 1%nat /\
  last_request_time (session (script i st)) = Some (now_record i) /\
  request_count (session (script i st))
  = request_count (fst (can_make_request (now_check i) st)) + 1.
Proof.
  intros O.
  destruct (script_cases i st)
    as [([O'|[e O']] & _)|[(_ & O' & _)|[(_ & _ & O' & _)|
                                          (A & _ & S & Fx & _)]]];
    try congruence.
  destruct Fx as (f & opened & image & _ & _ & _ & _ & F). rewrite S, F.
  repeat split. exact A.
Qed.

Lemma failed_requests_are_counted_witness :
  let i := with_reply (Raised "500 Internal error") (call_at 0) in
  outcome (script i initial_session)
  = Failed (ProviderError "500 Internal error") /\
  count_model_calls (effects (script i initial_session)) = 1%nat /\
  last_request_time (session (script i initial_session)) = Some 0 /\
  request_count (session (script i initial_session)) = 1.
Proof.
  cbv zeta. split; [reflexivity|].
  destruct (@failed_requests_are_counted bitmaps seconds_format
              (with_reply (Raised "500 Internal error") (call_at 0))
              initial_session (ProviderError "500 Internal error") eq_refl)
    as (_ & C & L & N).
  split; [exact C|]. split; [exact L | exact N].
Defined.

(** Without a usable upload the limiter is not consulted: when there is
    no upload, or the upload is too large or raises while it is opened,
    converted or drawn, the session is left as it was (not even the counter
    reset takes place) and nothing goes out; after a rejected upload the
    page stops before the sidebar, while without an upload the sidebar shows
    the untouched session. *)
Theorem unusable_upload_leaves_session {PIL : Pillow} {DF : DateFormat}
  (i : Interaction) (st : SessionState) :
  (uploaded_file i = None \/
   exists f e, uploaded_file i = Some f /\ image_intake f = inl e) ->
  session (script i st) = st /\
  effects (script i st) = [] /\
  (uploaded_file i = None ->
   outcome (script i st) = NoUpload /\
   sidebar i st = Some (usage_stats st)) /\
  (forall f e, uploaded_file i = Some f -> image_intake f = inl e ->
   outcome (script i st) = Rejected e /\ sidebar i st = None).
Proof.
  intros H. unfold sidebar, script.
  destruct H as [U|(f & e & U & I)]; rewrite U.
  - repeat split; intros; discriminate.
  - rewrite I. cbn [session outcome effects].
    split; [reflexivity|]. split; [reflexivity|].
    split; [discriminate|].
    intros f' e' Uf I'. injection Uf as <-. rewrite I in I'.
    injection I' as <-. split; reflexivity.
Qed.

(** The uploads that are rejected as undecodable: those on which
    [Image.open], the conversion or the drawing raises. *)
Lemma undecodable_uploads {PIL : Pillow} (f : UploadedFile) (e : string) :
  image_intake f = inl (Undecodable e) <->
  file_size f <= max_size /\
  (image_open (getvalue f) = inl e \/
   exists opened,
     image_open (getvalue f) = inr opened /\
     (ensure_rgb opened = inl e \/
      exists image, ensure_rgb opened = inr image /\
                    st_image f image = Some e)).
Proof.
  split.
  - unfold image_intake.
    destruct (file_size f >? max_size) eqn:S; [discriminate|].
    rewrite Z.gtb_ltb in S. apply Z.ltb_ge in S.
    destruct (image_open (getvalue f)) as [err|opened].
    { intros E. injection E as <-. split; [exact S | left; reflexivity]. }
    destruct (ensure_rgb opened) as [err|image] eqn:Cv.
    { intros E. injection E as <-. split; [exact S|]. right.
      exists opened. split; [reflexivity | left; exact Cv]. }
    destruct (st_image f image) as [err|] eqn:Dr; [|discriminate].
    intros E. injection E as <-. split; [exact S|]. right.
    exists opened. split; [reflexivity|]. right.
    exists image. split; [exact Cv | exact Dr].
  - intros [S H]. unfold image_intake.
    replace (file_size f >? max_size) with false
      by (symmetry; rewrite Z.gtb_ltb; apply Z.ltb_ge; exact S).
    destruct H as [O|(opened & O & [Cv|(image & Cv & Dr)])]; rewrite O.
    + reflexivity.
    + rewrite Cv. reflexivity.
    + rewrite Cv, Dr. reflexivity.
Qed.

Lemma unusable_upload_leaves_session_witness :
  let st := {| last_request_time := Some 0; request_count := 8 |} in
  let i := mkInteraction (Some palette_upload) true
             (timedelta_seconds 500) 0 0 0 0
             (fun _ _ => Responded (Some "X-ray")) in
  image_open (getvalue palette_upload)
  = inr (mkBitmap "P" (100, 100) (Some "PNG")) /\
  session (script i st) = st /\
  outcome (script i st) = Rejected (Undecodable "image file is truncated") /\
  sidebar i st = None.
Proof.
  cbv zeta. split; [reflexivity|].
  destruct (@unusable_upload_leaves_session bitmaps seconds_format
              (mkInteraction (Some palette_upload) true
                 (timedelta_seconds 500) 0 0 0 0
                 (fun _ _ => Responded (Some "X-ray")))
              {| last_request_time := Some 0; request_count := 8 |})
    as (S & _ & _ & R).
  - right. eexists _, _. split; reflexivity.
  - split; [exact S|]. apply (R _ _ eq_refl eq_refl).
Defined.

(** What goes out in one execution: nothing, or the 3-second pause followed
    by one request carrying the fixed prompt and a picture in mode RGB of
    the size of the decoded upload; and a request never goes out without the
    tracker having been updated first. *)
Theorem requests_carry_prompt_and_rgb {PIL : Pillow}
  {PC : PillowConvert PIL} {DF : DateFormat}
  (i : Interaction) (st : SessionState) :
  effects (script i st) = [] \/
  exists f opened pil_image,
    uploaded_file i = Some f /\
    image_open (getvalue f) = inr opened /\
    ensure_rgb opened = inr pil_image /\
    effects (script i st)
    = [Sleep 3; GenerateContent MEDICAL_PROMPT pil_image] /\
    image_mode pil_image = "RGB" /\
    image_size pil_image = image_size opened /\
    session (script i st)
    = update_request_tracker (now_record i)
        (fst (can_make_request (now_check i) st)).
Proof.
  destruct (script_cases i st)
    as [(_ & _ & F)|[(_ & _ & _ & F)|[(_ & _ & _ & _ & F)|
                                       (_ & _ & S & Fx & _)]]];
    try (left; exact F).
  right. destruct Fx as (f & opened & image & U & O & Cv & _ & F).
  exists f, opened, image. split; [exact U|]. split; [exact O|].
  split; [exact Cv|]. split; [exact F|].
  destruct (ensure_rgb_yields opened image Cv) as (M & Sz & _).
  split; [exact M|]. split; [exact Sz | exact S].
Qed.

Lemma requests_carry_prompt_and_rgb_witness :
  effects (script (call_at 0) initial_session)
  = [Sleep 3;
     GenerateContent MEDICAL_PROMPT (mkBitmap "RGB" (100, 100) None)].
Proof.
  destruct (@requests_carry_prompt_and_rgb bitmaps bitmaps_convert
              seconds_format (call_at 0) initial_session)
    as [F|(f & opened & pil_image & U & O & Cv & F & _)].
  - discriminate F.
  - injection U as <-. injection O as <-. injection Cv as <-. exact F.
Defined.

(** ** The handler of provider errors *)

Lemma lower_ascii_keeps_digits (a : ascii) :
  Ascii.eqb "4" (lower_ascii a) = Ascii.eqb "4" a /\
  Ascii.eqb "2" (lower_ascii a) = Ascii.eqb "2" a /\
  Ascii.eqb "9" (lower_ascii a) = Ascii.eqb "9" a.
Proof.
  destruct a as [[] [] [] [] [] [] [] []]; repeat split.
Qed.

Lemma startswith_429_lower (h : string) :
  startswith (lower h) "429" = startswith h "429".
Proof.
  destruct h as [|a [|b [|c h]]]; cbn [lower startswith]; try reflexivity.
  - destruct (lower_ascii_keeps_digits a) as (-> & _). reflexivity.
  - destruct (lower_ascii_keeps_digits a) as (-> & _).
    destruct (lower_ascii_keeps_digits b) as (_ & -> & _). reflexivity.
  - destruct (lower_ascii_keeps_digits a) as (-> & _).
    destruct (lower_ascii_keeps_digits b) as (_ & -> & _).
    destruct (lower_ascii_keeps_digits c) as (_ & _ & ->). reflexivity.
Qed.

(** Lowering a message neither creates nor removes an occurrence of 429. *)
Lemma str_in_429_lower (h : string) :
  str_in "429" (lower h) = str_in "429" h.
Proof.
  induction h as [|a h IH].
  - reflexivity.
  - change (lower (String a h)) with (String (lower_ascii a) (lower h)).
    change (str_in "429" (String (lower_ascii a) (lower h)))
      with (startswith (lower (String a h)) "429" || str_in "429" (lower h)).
    change (str_in "429" (String a h))
      with (startswith (String a h) "429" || str_in "429" h).
    rewrite startswith_429_lower, IH. reflexivity.
Qed.

(** The handler does not look at the case of letters: two messages that
    differ only in case go to the same branch.  So QUOTA, Quota and quota are
    all reported as a rate limit, and SAFETY as a safety block. *)
Theorem classification_ignores_case (msg msg' : string) :
  lower msg = lower msg' ->
  same_kind (classify_exception msg) (classify_exception msg') = true.
Proof.
  intros L. unfold classify_exception.
  rewrite <- (str_in_429_lower msg), <- (str_in_429_lower msg'), L.
  destruct (str_in "429" (lower msg') || str_in "quota" (lower msg'));
    [reflexivity|].
  destruct (str_in "safety" (lower msg')); reflexivity.
Qed.

Lemma classification_ignores_case_witness :
  same_kind (classify_exception "Daily QUOTA exceeded")
            (classify_exception "daily quota exceeded") = true /\
  classify_exception "Daily QUOTA exceeded" = ProviderRateLimited.
Proof.
  split; [|reflexivity].
  apply (classification_ignores_case "Daily QUOTA exceeded"
           "daily quota exceeded").
  reflexivity.
Defined.

(** ** Model set-up *)

(** [get_model()] asks for the flash model first and for the pro model only
    when that failed; it returns nothing exactly when both failed, and then
    the error shown is the second one; otherwise it shows no error and
    returns the first client that could be built. *)
Theorem get_model_falls_back_once {G : GenAI} :
  let flash := GenerativeModel "gemini-1.5-flash" generation_config in
  let pro := GenerativeModel "gemini-1.5-pro" generation_config in
  (In "gemini-1.5-pro" (requested get_model) <-> exists e, flash = inl e) /\
  (requested get_model = ["gemini-1.5-flash"] \/
   requested get_model = ["gemini-1.5-flash"; "gemini-1.5-pro"]) /\
  (model get_model = None <-> exists e e2, flash = inl e /\ pro = inl e2) /\
  (forall m, model get_model = Some m <->
             flash = inr m \/ ((exists e, flash = inl e) /\ pro = inr m)) /\
  (forall s, setup_error get_model = Some s <->
             exists e e2, flash = inl e /\ pro = inl e2 /\
                          s = "❌ Failed to initialize AI model: " ++ e2).
Proof.
  cbv zeta. unfold get_model.
  destruct (GenerativeModel "gemini-1.5-flash" generation_config)
    as [e|m] eqn:F.
  - destruct (GenerativeModel "gemini-1.5-pro" generation_config)
      as [e2|m2] eqn:Pr; cbn [requested model setup_error].
    + split; [split; [intros _; exists e; reflexivity
                     | intros _; right; left; reflexivity]|].
      split; [right; reflexivity|].
      split; [split; [intros _; exists e, e2; split; reflexivity
                     | reflexivity]|].
      split.
      * intros m. split; [discriminate|].
        intros [H|[_ H]]; discriminate H.
      * intros s. split.
        -- intros H. injection H as <-. exists e, e2. repeat split.
        -- intros (e' & e2' & _ & H2 & ->). injection H2 as <-. reflexivity.
    + split; [split; [intros _; exists e; reflexivity
                     | intros _; right; left; reflexivity]|].
      split; [right; reflexivity|].
      split; [split; [discriminate
                     | intros (e' & e2' & _ & H); discriminate H]|].
      split.
      * intros m. split.
        -- intros H. injection H as <-. right. split; [exists e|]; reflexivity.
        -- intros [H|[_ H]]; [discriminate H | injection H as <-; reflexivity].
      * intros s. split; [discriminate|].
        intros (e' & e2' & _ & H & _). discriminate H.
  - cbn [requested model setup_error].
    split; [split; [intros [H|[]]; discriminate H
                   | intros [e H]; discriminate H]|].
    split; [left; reflexivity|].
    split; [split; [discriminate
                   | intros (e' & e2' & H & _); discriminate H]|].
    split.
    + intros m'. split.
      * intros H. injection H as <-. left. reflexivity.
      * intros [H|[[e H] _]]; [injection H as <-; reflexivity | discriminate H].
    + intros s. split; [discriminate|].
      intros (e' & e2' & H & _). discriminate H.
Qed.

(** ** The sidebar *)

(** A call made after the window has rolled over. *)
Lemma call_after_rollover {PIL : Pillow} {DF : DateFormat} (i : Interaction)
  (st : SessionState) :
  is_call i = true ->
  window_rolled_over (now_check i) st = true ->
  request_count (session (script i st)) = 1 /\
  last_request_time (session (script i st)) = Some (now_record i) /\
  count_model_calls (effects (script i st)) = 1%nat.
Proof.
  unfold is_call, script. intros C R.
  apply andb_true_iff in C. destruct C as [Hb C].
  destruct (uploaded_file i) as [f|]; [|discriminate].
  destruct (image_intake f) as [e|image] eqn:I; [discriminate|].
  destruct (intake_accepts f image I) as (_ & opened & O & Cv & _).
  destruct (can_make_request_cases (now_check i) st)
    as [[_ E]|[(R' & _)|(R' & _)]]; try congruence.
  unfold analysis. rewrite E. cbn [negb]. rewrite Hb.
  unfold generate. rewrite O, Cv.
  destruct (generate_content i MEDICAL_PROMPT image)
    as [err|[text|]]; [| destruct (truthy text) |];
    cbn [session effects]; repeat split.
Qed.

Lemma spaced_calls_run {PIL : Pillow} {DF : DateFormat}
  (steps : list Interaction) :
  forall st : SessionState,
    spaced_after (last_request_time st) steps ->
    count_model_calls (all_effects steps st) = List.length steps /\
    (steps <> [] -> request_count (session_after steps st) = 1).
Proof.
  induction steps as [|i steps IH]; intros st Sp.
  - split; [reflexivity | intros N; contradiction].
  - destruct Sp as (C & L & Sp).
    assert (R : window_rolled_over (now_check i) st = true).
    { unfold window_rolled_over.
      destruct (last_request_time st) as [t|]; [|reflexivity].
      rewrite Z.gtb_ltb. apply Z.ltb_lt. lia. }
    destruct (call_after_rollover i st C R) as (N & T & One).
    rewrite <- T in Sp. destruct (IH _ Sp) as (IH1 & IH2).
    cbn [all_effects session_after List.length].
    rewrite count_model_calls_app, One, IH1.
    split; [reflexivity|]. intros _.
    destruct steps as [|j steps]; [exact N | apply IH2; discriminate].
Qed.

(** "Requests this session" is not a total: after any number of calls, each
    made more than 60 seconds after the one before, the model has been
    called once per call and the sidebar reads 1. *)
Theorem sidebar_counts_the_window_only {PIL : Pillow} {DF : DateFormat}
  (steps : list Interaction) (st : SessionState) :
  steps <> [] ->
  spaced_after (last_request_time st) steps ->
  count_model_calls (all_effects steps st) = List.length steps /\
  request_count (session_after steps st) = 1 /\
  hd "" (usage_stats (session_after steps st)) = "Requests this session: 1".
Proof.
  intros N Sp. destruct (spaced_calls_run steps st Sp) as (Calls & One).
  specialize (One N). split; [exact Calls|]. split; [exact One|].
  unfold usage_stats. rewrite One. reflexivity.
Qed.

Lemma sidebar_counts_the_window_only_witness :
  let steps := map call_at [0; 61; 122; 183] in
  count_model_calls (all_effects steps initial_session) = 4%nat /\
  request_count (session_after steps initial_session) = 1 /\
  hd "" (usage_stats (session_after steps initial_session))
  = "Requests this session: 1".
Proof.
  apply (@sidebar_counts_the_window_only bitmaps seconds_format
           (map call_at [0; 61; 122; 183]) initial_session).
  - discriminate.
  - cbn [map spaced_after initial_session last_request_time call_at
         now_check now_record].
    repeat split; vm_compute; reflexivity.
Defined.

(** The sidebar of a reachable session never shows more than 8 requests,
    and shows the session as the execution left it: with the request just
    recorded when there was one. *)
Theorem sidebar_shows_at_most_the_budget {PIL : Pillow} {DF : DateFormat}
  (i : Interaction) (st : SessionState) (lines : list string) :
  reachable st ->
  sidebar i st = Some lines ->
  exists n,
    0 <= n <= 8 /\
    n = request_count (session (script i st)) /\
    hd "" lines = "Requests this session: " ++ str_of_int n /\
    (last_request_time (session (script i st)) = None ->
     lines = ["Requests this session: 0"]).
Proof.
  intros R Sb.
  assert (R' : reachable (session (script i st)))
    by (apply reachable_script; exact R).
  assert (B : 0 <= request_count (session (script i st)) <= 8).
  { clear Sb. change 8 with budget.
    induction R' as [|j s Rs IH]; [cbn; unfold budget; lia|].
    apply script_keeps_bounds. exact IH. }
  assert (Z0 : last_request_time (session (script i st)) = None ->
               request_count (session (script i st)) = 0)
    by (apply no_time_no_count; exact R').
  assert (L : lines = usage_stats (session (script i st))).
  { unfold sidebar in Sb.
    destruct (outcome (script i st)); congruence. }
  exists (request_count (session (script i st))).
  split; [exact B|]. split; [reflexivity|]. subst lines.
  unfold usage_stats. split; [reflexivity|].
  intros Hn. rewrite Hn, (Z0 Hn). reflexivity.
Qed.

Lemma sidebar_shows_at_most_the_budget_witness :
  let st := session_after eight_spaced_calls initial_session in
  exists n,
    0 <= n <= 8 /\
    n = request_count (session (script (call_at 400) st)) /\
    hd "" (usage_stats st) = "Requests this session: " ++ str_of_int n /\
    (last_request_time (session (script (call_at 400) st)) = None ->
     usage_stats st = ["Requests this session: 0"]).
Proof.
  apply (@sidebar_shows_at_most_the_budget bitmaps seconds_format
           (call_at 400)
           (session_after eight_spaced_calls initial_session)).
  - apply reachable_session_after. apply reachable_initial.
  - vm_compute. reflexivity.
Defined.

(** ** What the page shows about the picture *)

(** The "Image Size" metric is that of the decoded upload, but the "Format"
    metric is read after the conversion: it is the format of the file only
    for an upload already in mode RGB, and is empty for every other one. *)
Theorem format_metric_is_lost_on_conversion {PIL : Pillow}
  {PC : PillowConvert PIL} {PF : PillowFormat PIL}
  (f : UploadedFile) (opened image : Image) :
  image_open (getvalue f) = inr opened ->
  image_intake f = inr image ->
  image_size_metric image = image_size_metric opened /\
  (image_mode opened = "RGB" -> format_metric image = image_format opened) /\
  (image_mode opened <> "RGB" -> format_metric image = None).
Proof.
  intros O I.
  destruct (intake_accepts f image I) as (_ & opened' & O' & Cv & _).
  rewrite O in O'. injection O' as <-.
  unfold image_size_metric, format_metric.
  destruct (ensure_rgb_cases opened) as [[M E]|[M E]]; rewrite E in Cv.
  - injection Cv as <-.
    split; [reflexivity|]. split; [reflexivity | intros N; contradiction].
  - rewrite (convert_rgb_size _ _ Cv), (convert_format _ _ _ Cv).
    split; [reflexivity|]. split; [intros N; contradiction | reflexivity].
Qed.

Lemma format_metric_is_lost_on_conversion_witness :
  (image_size_metric (mkBitmap "RGB" (100, 100) None) = "100 × 100" /\
   format_metric (mkBitmap "RGB" (100, 100) None) = None) /\
  format_metric (mkBitmap "RGB" (100, 100) (Some "JPEG")) = Some "JPEG".
Proof.
  destruct (@format_metric_is_lost_on_conversion bitmaps bitmaps_convert
              bitmaps_format gray_upload
              (mkBitmap "L" (100, 100) (Some "PNG"))
              (mkBitmap "RGB" (100, 100) None) eq_refl eq_refl)
    as (G1 & _ & G3).
  destruct (@format_metric_is_lost_on_conversion bitmaps bitmaps_convert
              bitmaps_format rgb_upload
              (mkBitmap "RGB" (100, 100) (Some "JPEG"))
              (mkBitmap "RGB" (100, 100) (Some "JPEG")) eq_refl eq_refl)
    as (_ & R2 & _).
  split; [split|].
  - rewrite G1. reflexivity.
  - apply G3. discriminate.
  - apply R2. reflexivity.
Defined.

(** ** The wait of line 166 for any clock *)

(** Whatever the clock reads, the wait computed at line 166 is at most 60
    and at least -86339; it is negative exactly when the seconds component
    of the time since the last request is above 60, as it is after a clock
    set back. *)
Theorem wait_is_at_most_sixty (now : datetime) (st : SessionState) (r : Z) :
  remaining_time now st = Some r ->
  -86339 <= r <= 60 /\
  (forall t, last_request_time st = Some t ->
             (r < 0 <-> 60 < td_seconds (now - t))).
Proof.
  unfold remaining_time. destruct (last_request_time st) as [t|];
    [|discriminate].
  intros H. assert (Hr : r = 60 - td_seconds (now - t)) by congruence.
  clear H. subst r. split.
  - clock_arith.
  - intros t' Ht'. assert (t' = t) by congruence. subst t'. lia.
Qed.

Lemma wait_is_at_most_sixty_witness :
  let st := {| last_request_time := Some 0; request_count := 8 |} in
  -86339 <= -86339 <= 60 /\
  (forall t, last_request_time st = Some t ->
             (-86339 < 0 <-> 60 < td_seconds (timedelta_seconds (-1) - t))).
Proof.
  apply (wait_is_at_most_sixty (timedelta_seconds (-1))
           {| last_request_time := Some 0; request_count := 8 |}).
  reflexivity.
Defined.

(** ** The report as a document *)

Lemma append_inv_head (a x y : string) : a ++ x = a ++ y -> x = y.
Proof.
  induction a as [|c a IH]; cbn [append]; intros H.
  - exact H.
  - injection H as H. exact (IH H).
Qed.

Lemma length_append (a b : string) :
  String.length (a ++ b) = (String.length a + String.length b)%nat.
Proof.
  induction a as [|c a IH]; cbn [append String.length].
  - reflexivity.
  - rewrite IH. reflexivity.
Qed.

Lemma append_inv_tail (b : string) :
  forall x y : string, x ++ b = y ++ b -> x = y.
Proof.
  induction x as [|c x IH]; intros y H.
  - destruct y as [|d y]; [reflexivity|].
    apply (f_equal String.length) in H.
    cbn [append String.length] in H. rewrite length_append in H. lia.
  - destruct y as [|d y].
    + apply (f_equal String.length) in H.
      cbn [append String.length] in H. rewrite length_append in H. lia.
    + cbn [append] in H. injection H as -> H. f_equal. exact (IH y H).
Qed.

(** The report gives the analysis back: two reports with the same
    timestamp, image name and size are equal only if their texts are; every
    report opens with the title line and closes with the disclaimer. *)
Theorem report_determines_text (generated image_name : string)
  (size : Z * Z) (text text' : string) :
  (report_content generated image_name size text
   = report_content generated image_name size text' -> text = text') /\
  startswith (report_content generated image_name size text) REPORT_TITLE
  = true /\
  exists body,
    report_content generated image_name size text = body ++ DISCLAIMER.
Proof.
  unfold report_content. split; [|split].
  - intros H. do 10 apply append_inv_head in H.
    exact (append_inv_tail _ _ _ H).
  - apply startswith_append.
  - assert (A : forall a b c : string, a ++ (b ++ c) = (a ++ b) ++ c).
    { intros a b c. induction a as [|x a IH]; cbn [append];
        [reflexivity | rewrite IH; reflexivity]. }
    rewrite !A. eexists. reflexivity.
Qed.

(** ** Steady use *)

(** The counter is reset by a pause, not by the passing of minutes: calls
    that each come at most 60 seconds after the one before are all counted
    in the same window, however long the series lasts.  As long as the
    budget is not used up they are let through, and the counter has grown by
    their number. *)
Theorem steady_use_is_never_reset {PIL : Pillow} {DF : DateFormat}
  (steps : list Interaction) :
  forall (st : SessionState) (t : datetime),
    last_request_time st = Some t ->
    chained t steps ->
    request_count st + Z.of_nat (List.length steps) <= budget ->
    Forall (fun o => allowed o = true) (outcomes steps st) /\
    request_count (session_after steps st)
    = request_count st + Z.of_nat (List.length steps).
Proof.
  induction steps as [|i steps IH]; intros st t Ht Ch B.
  - cbn. split; [constructor | lia].
  - destruct Ch as (C & W & Ch).
    cbn [List.length] in B. rewrite Nat2Z.inj_succ in B.
    assert (E : can_make_request (now_check i) st = (st, (true, ""))).
    { destruct (can_make_request_cases (now_check i) st)
        as [[R _]|[(_ & _ & E)|(_ & B' & _)]]; [| exact E | lia].
      unfold window_rolled_over in R. rewrite Ht in R.
      rewrite Z.gtb_ltb in R. apply Z.ltb_lt in R. lia. }
    destruct (call_session i st C) as [(_ & _ & A & S)|(Dn & _)].
    2:{ rewrite E in Dn. discriminate Dn. }
    rewrite E in S. cbn [fst] in S.
    cbn [outcomes session_after List.length].
    destruct (IH (session (script i st)) (now_record i)) as (IH1 & IH2).
    + rewrite S. reflexivity.
    + exact Ch.
    + rewrite S. cbn [update_request_tracker request_count]. lia.
    + split; [constructor; assumption|].
      rewrite IH2, S. cbn [update_request_tracker request_count]. lia.
Qed.

Lemma steady_use_is_never_reset_witness :
  let st := session (script (call_at 0) initial_session) in
  let steps := map call_at [50; 100; 150; 200; 250; 300; 350] in
  Forall (fun o => allowed o = true) (outcomes steps st) /\
  request_count (session_after steps st)
  = request_count st + Z.of_nat (List.length steps).
Proof.
  apply (@steady_use_is_never_reset bitmaps seconds_format
           (map call_at [50; 100; 150; 200; 250; 300; 350])
           (session (script (call_at 0) initial_session)) 0).
  - reflexivity.
  - cbn [map chained call_at now_check now_record].
    repeat split; vm_compute; discriminate.
  - vm_compute. discriminate.
Defined.
